(** * rn-range-slider: the Slider component of src/index.tsx

    A shallow embedding of the gesture and synchronisation logic of the
    [Slider] function component, and the properties proved about it.

    Numbers.  A JavaScript number is modelled as an exact rational ([Q]):
    [+ - * /] are the field operations, [===] is [Qeq_bool].  [NaN] and
    the infinities have no counterpart, so a division by zero (which the
    source performs when [max = min]) is outside the model; every bound
    proved on such a quotient assumes [min < max].  The source rounds
    every result to binary64.  Bounds are therefore stated against the
    expressions the source computes, and where an order between stored
    values is carried through a sequence of changes it is proved once
    more with the computed session bounds rounded.

    Effects.  The component mutates refs ([inPropsRef], [gestureStateRef],
    [containerWidthRef], the two thumb [Animated.Value]s), one piece of
    React state ([isPressed]), the listener table of [pointerX], and calls
    back into the host.  All of it is gathered in one [World] record that
    the handlers thread through a small state monad; calls that leave the
    component are appended to [calls] in the order they are made. *)

From Stdlib Require Import QArith Qminmax Qabs Qround Lqa Bool List PeanoNat Lia.
From Stdlib Require Import Floats.
#[local] Set Warnings "-inexact-float".
Import ListNotations.
Open Scope Q_scope.

(** ** JavaScript operators on numbers *)

(** [a === b] on two numbers. *)
Definition strictEq (a b : Q) : bool := Qeq_bool a b.
(** [a !== b]. *)
Definition strictNe (a b : Q) : bool := negb (Qeq_bool a b).
(** [!x] for a number: [0] is the only falsy rational. *)
Definition falsy (x : Q) : bool := Qeq_bool x 0.

Notation "a === b" := (strictEq a b) (at level 70, no associativity).
Notation "a !== b" := (strictNe a b) (at level 70, no associativity).

(** ** Helpers imported from './helpers' *)

(** Modelled from the spec: [clamp] of helpers.ts, of which only the
    import is in index.tsx.  The spec uses it as "clamp to [lo, hi]": the
    value itself when it lies between the bounds, the nearer bound
    otherwise. *)
Definition clamp (value lo hi : Q) : Q := Qmin (Qmax value lo) hi.

(** Modelled from the spec: [getValueForPosition] of helpers.ts (spec 4.1,
    valueForPosition): inverse linear interpolation, the raw result clamped
    to [min, max], then rounded to the nearest multiple of [step] counted
    from [min].  Used only to run the component on concrete inputs; the
    component itself is parametric in this helper. *)
Definition getValueForPosition_spec
    (positionInView containerWidth thumbWidth min max step : Q) : Q :=
  let raw :=
    clamp (min + (positionInView / (containerWidth - thumbWidth)) * (max - min))
          min max in
  min + inject_Z (Qfloor ((raw - min) / step + (1 # 2))) * step.

(** Modelled from the spec: [isLowCloser] of helpers.ts (spec 4.2): the
    thumb whose centre is nearer in absolute distance, ties towards the low
    thumb.  Used only to run the component on concrete inputs. *)
Definition isLowCloser_spec (downX lowPosition highPosition : Q) : bool :=
  Qle_bool (Qabs (downX - lowPosition)) (Qabs (downX - highPosition)).

(** ** Data *)

(** [inPropsRef.current]: the value store read synchronously by the
    handlers. *)
Module InProps.
Record t := mk { low : Q; high : Q; min : Q; max : Q; step : Q }.
Definition withLow (v : Q) (p : t) : t := mk v (high p) (min p) (max p) (step p).
Definition withHigh (v : Q) (p : t) : t := mk (low p) v (min p) (max p) (step p).
End InProps.

(** [gestureStateRef.current]. *)
Module GestureState.
Record t := mk { isLow : bool; lastValue : Q; lastPosition : Q }.
(** [useRef({isLow: true, lastValue: 0, lastPosition: 0})] *)
Definition initial : t := mk true 0 0.
End GestureState.

(** The destructured [SliderProps] that the logic reads.  An optional
    number prop is [None] when [undefined]; [minRange], [disableRange] and
    [disabled] carry their defaults already.  A function- or object-valued
    dependency takes part in React's dependency comparison through its
    identity only, kept here as a token. *)
Module Props.
Record t := mk {
  min : Q;
  max : Q;
  minRange : Q;
  step : Q;
  low : option Q;
  high : option Q;
  disableRange : bool;
  disabled : bool;
  onValueChangedId : nat
}.
End Props.

(** What one render pass of [Slider] closes over. *)
Record Render := mkRender {
  props : Props.t;
  (** [const [thumbWidth, setThumbWidth] = useState(0)] *)
  thumbWidth : Q;
  (** [inPropsRefPrev], as returned by [useLowHigh] *)
  lowPrev : Q;
  highPrev : Q;
  inPropsRefPrevId : nat;
  (** identity of [updateSelectedRail], as returned by [useSelectedRail] *)
  updateSelectedRailId : nat
}.

(** The closure that [onPanResponderGrant] registers on [pointerX]: it
    captures the render it was created in, [isLow], [containerWidth] and
    [containerX]. *)
Record Listener := mkListener {
  l_render : Render;
  l_isLow : bool;
  l_containerWidth : Q;
  l_containerX : Q
}.

(** A call that leaves the component: a host callback, or one of the
    updaters obtained from the hooks.  The host callbacks are optional
    props and the updaters are tested before they are called
    ([onValueChanged?.(...)], [labelUpdate && labelUpdate(...)]); the model
    records every call site that is reached, and an absent callback simply
    does not hear of it. *)
Inductive Call :=
| onSliderTouchStart (low high : Q)
| onValueChanged (low high : Q) (byUser : bool)
| onSliderTouchEnd (low high : Q)
| labelUpdate (position value : Q)
| notchUpdate (position value : Q)
| updateSelectedRail.

Record World := mkWorld {
  inPropsRef : InProps.t;
  gestureStateRef : GestureState.t;
  isPressed : bool;
  containerWidthRef : Q;
  lowThumbX : Q;
  highThumbX : Q;
  pointerX : list Listener;
  calls : list Call
}.

(** ** The effect monad *)

Definition Eff (A : Type) : Type := World -> A * World.

Definition ret {A} (a : A) : Eff A := fun w => (a, w).
Definition bind {A B} (m : Eff A) (k : A -> Eff B) : Eff B :=
  fun w => let (a, w') := m w in k a w'.
Definition exec {A} (m : Eff A) (w : World) : World := snd (m w).

Notation "x <- m ;; k" := (bind m (fun x => k))
  (at level 61, m at next level, right associativity).
Notation "m ;; k" := (bind m (fun _ => k))
  (at level 61, right associativity).

Definition read {A} (f : World -> A) : Eff A := fun w => (f w, w).
Definition update (f : World -> World) : Eff unit := fun w => (tt, f w).

Definition call (c : Call) : Eff unit :=
  update (fun w => mkWorld (inPropsRef w) (gestureStateRef w) (isPressed w)
    (containerWidthRef w) (lowThumbX w) (highThumbX w) (pointerX w)
    (calls w ++ [c])).

Definition setPressed (b : bool) : Eff unit :=
  update (fun w => mkWorld (inPropsRef w) (gestureStateRef w) b
    (containerWidthRef w) (lowThumbX w) (highThumbX w) (pointerX w) (calls w)).

Definition setInProps (f : InProps.t -> InProps.t) : Eff unit :=
  update (fun w => mkWorld (f (inPropsRef w)) (gestureStateRef w) (isPressed w)
    (containerWidthRef w) (lowThumbX w) (highThumbX w) (pointerX w) (calls w)).

(** Modelled from the spec: [setLow] and [setHigh] returned by
    [useLowHigh] of hooks.ts, of which only the call is in index.tsx; the
    value store "exposes setters" for its current low and high. *)
Definition setLow (v : Q) : Eff unit := setInProps (InProps.withLow v).
Definition setHigh (v : Q) : Eff unit := setInProps (InProps.withHigh v).

Definition setGestureState (g : GestureState.t) : Eff unit :=
  update (fun w => mkWorld (inPropsRef w) g (isPressed w)
    (containerWidthRef w) (lowThumbX w) (highThumbX w) (pointerX w) (calls w)).

(** [lowThumbX.setValue(x)] and [highThumbX.setValue(x)]. *)
Definition lowThumbX_setValue (x : Q) : Eff unit :=
  update (fun w => mkWorld (inPropsRef w) (gestureStateRef w) (isPressed w)
    (containerWidthRef w) x (highThumbX w) (pointerX w) (calls w)).
Definition highThumbX_setValue (x : Q) : Eff unit :=
  update (fun w => mkWorld (inPropsRef w) (gestureStateRef w) (isPressed w)
    (containerWidthRef w) (lowThumbX w) x (pointerX w) (calls w)).

Definition setListeners (ls : list Listener) : Eff unit :=
  update (fun w => mkWorld (inPropsRef w) (gestureStateRef w) (isPressed w)
    (containerWidthRef w) (lowThumbX w) (highThumbX w) ls (calls w)).
(** [pointerX.removeAllListeners()] and [pointerX.addListener(l)]. *)
Definition removeAllListeners : Eff unit := setListeners [].
Definition addListener (l : Listener) : Eff unit :=
  ls <- read pointerX ;; setListeners (ls ++ [l]).

(** [if (c) { return; }] followed by the rest of the body. *)
Definition unless (c : bool) (rest : Eff unit) : Eff unit :=
  if c then ret tt else rest.

(** ** The component *)

Section Slider.

(** The two helpers of helpers.ts that the component calls besides
    [clamp]; the component is parametric in them. *)
Variable getValueForPosition : Q -> Q -> Q -> Q -> Q -> Q -> Q.
Variable isLowCloser : Q -> Q -> Q -> bool.

(** The expression [((value - min) / (max - min)) * availableSpace], which
    the source writes out at each of its five uses (lines 111, 117, 235,
    238 and 266); the name is the spec's. *)
Definition positionForValue (value min max availableSpace : Q) : Q :=
  ((value - min) / (max - min)) * availableSpace.

(** [updateThumbs] (lines 101-131), as created by render [r]. *)
Definition updateThumbs (r : Render) : Eff unit :=
  containerWidth <- read containerWidthRef ;;
  unless (falsy (thumbWidth r) || falsy containerWidth) (
    p <- read inPropsRef ;;
    let low := InProps.low p in
    let high := InProps.high p in
    (if negb (Props.disableRange (props r)) then
       let highPosition :=
         positionForValue high (Props.min (props r)) (Props.max (props r))
                          (containerWidth - thumbWidth r) in
       highThumbX_setValue highPosition
     else ret tt) ;;
    let lowPosition :=
      positionForValue low (Props.min (props r)) (Props.max (props r))
                       (containerWidth - thumbWidth r) in
    lowThumbX_setValue lowPosition ;;
    call updateSelectedRail ;;
    call (onValueChanged low high false)).

(** The condition of the first effect (lines 135-138). *)
Definition definedAndDiffers (prop : option Q) (prev : Q) : bool :=
  match prop with
  | Some v => v !== prev
  | None => false
  end.

Definition externalChanged (r : Render) : bool :=
  definedAndDiffers (Props.low (props r)) (lowPrev r)
  || definedAndDiffers (Props.high (props r)) (highPrev r).

(** The body of the first [useEffect] (lines 133-140). *)
Definition externalSyncEffect (r : Render) : Eff unit :=
  if externalChanged r then updateThumbs r else ret tt.

(** The body of the second [useEffect] (lines 150-152). *)
Definition layoutSyncEffect (r : Render) : Eff unit :=
  updateThumbs r.

(** React's dependency comparison.  [updateThumbs] is a [useCallback]
    over [disableRange, inPropsRef, max, min, onValueChanged, thumbWidth,
    updateSelectedRail]; [inPropsRef] is a ref object, the same on every
    render. *)
Definition sameOption (a b : option Q) : bool :=
  match a, b with
  | Some x, Some y => x === y
  | None, None => true
  | _, _ => false
  end.

Definition updateThumbsUnchanged (prev cur : Render) : bool :=
  Bool.eqb (Props.disableRange (props prev)) (Props.disableRange (props cur))
  && (Props.max (props prev) === Props.max (props cur))
  && (Props.min (props prev) === Props.min (props cur))
  && Nat.eqb (Props.onValueChangedId (props prev))
             (Props.onValueChangedId (props cur))
  && (thumbWidth prev === thumbWidth cur)
  && Nat.eqb (updateSelectedRailId prev) (updateSelectedRailId cur).

(** The dependency list of the first effect (lines 141-148). *)
Definition externalSyncUnchanged (prev cur : Render) : bool :=
  sameOption (Props.high (props prev)) (Props.high (props cur))
  && (lowPrev prev === lowPrev cur)
  && (highPrev prev === highPrev cur)
  && sameOption (Props.low (props prev)) (Props.low (props cur))
  && Nat.eqb (inPropsRefPrevId prev) (inPropsRefPrevId cur)
  && updateThumbsUnchanged prev cur.

(** Whether React runs each of the two effects after a render: always on
    mount ([prev = None]), afterwards when a dependency changed. *)
Definition runsExternalSync (prev : option Render) (cur : Render) : bool :=
  match prev with
  | None => true
  | Some p => negb (externalSyncUnchanged p cur)
  end.

Definition runsLayoutSync (prev : option Render) (cur : Render) : bool :=
  match prev with
  | None => true
  | Some p => negb (updateThumbsUnchanged p cur)
  end.

(** The effects of one render pass, in the order they are declared. *)
Definition commitEffects (prev : option Render) (cur : Render) : Eff unit :=
  (if runsExternalSync prev cur then externalSyncEffect cur else ret tt) ;;
  (if runsLayoutSync prev cur then layoutSyncEffect cur else ret tt).

(** [handleThumbLayout] (lines 155-165): the next value of the
    [thumbWidth] state. *)
Definition handleThumbLayout (r : Render) (width : Q) : Q :=
  if thumbWidth r !== width then width else thumbWidth r.

(** The value computed by [handlePositionChange] (lines 246-260) from the
    store [p], for the session of listener [l]. *)
Definition moveValue (l : Listener) (positionInView : Q) (p : InProps.t) : Q :=
  let minRange := Props.minRange (props (l_render l)) in
  let minValue :=
    if l_isLow l then InProps.min p else InProps.low p + minRange in
  let maxValue :=
    if l_isLow l then InProps.high p - minRange else InProps.max p in
  clamp
    (getValueForPosition positionInView (l_containerWidth l)
       (thumbWidth (l_render l)) (InProps.min p) (InProps.max p)
       (InProps.step p))
    minValue maxValue.

(** [handlePositionChange] (lines 244-282) of the session of [l]. *)
Definition handlePositionChange (l : Listener) (positionInView : Q) : Eff unit :=
  p <- read inPropsRef ;;
  let value := moveValue l positionInView p in
  g <- read gestureStateRef ;;
  unless (GestureState.lastValue g === value) (
    let availableSpace := l_containerWidth l - thumbWidth (l_render l) in
    let absolutePosition :=
      positionForValue value (InProps.min p) (InProps.max p) availableSpace in
    let lastPosition := absolutePosition + thumbWidth (l_render l) / 2 in
    setGestureState (GestureState.mk (GestureState.isLow g) value lastPosition) ;;
    (if l_isLow l then lowThumbX_setValue absolutePosition
     else highThumbX_setValue absolutePosition) ;;
    call (onValueChanged (if l_isLow l then value else InProps.low p)
                         (if l_isLow l then InProps.high p else value) true) ;;
    (if l_isLow l then setLow value else setHigh value) ;;
    call (labelUpdate lastPosition value) ;;
    call (notchUpdate lastPosition value) ;;
    call updateSelectedRail).

(** The listener body (lines 285-288), called with the new value of
    [pointerX]. *)
Definition listener (l : Listener) (pointerPosition : Q) : Eff unit :=
  let positionInView := pointerPosition - l_containerX l in
  handlePositionChange l positionInView.

(** [onPanResponderGrant] (lines 212-289). *)
Definition onPanResponderGrant (r : Render)
    (locationX pageX : Q) (numberActiveTouches : nat) : Eff unit :=
  unless (Props.disabled (props r)) (
  unless (Nat.ltb 1 numberActiveTouches) (
    setPressed true ;;
    let downX := locationX in
    let containerX := pageX - downX in
    p <- read inPropsRef ;;
    let low := InProps.low p in
    let high := InProps.high p in
    let min := InProps.min p in
    let max := InProps.max p in
    call (onSliderTouchStart low high) ;;
    containerWidth <- read containerWidthRef ;;
    let lowPosition :=
      thumbWidth r / 2
      + positionForValue low min max (containerWidth - thumbWidth r) in
    let highPosition :=
      thumbWidth r / 2
      + positionForValue high min max (containerWidth - thumbWidth r) in
    let isLow :=
      Props.disableRange (props r)
      || isLowCloser downX lowPosition highPosition in
    g <- read gestureStateRef ;;
    setGestureState (GestureState.mk isLow (GestureState.lastValue g)
                                     (GestureState.lastPosition g)) ;;
    let l := mkListener r isLow containerWidth containerX in
    handlePositionChange l downX ;;
    removeAllListeners ;;
    addListener l)).

(** [pointerX.setValue(x)]: every registered listener is called with the
    new value, in registration order. *)
Fixpoint callListeners (ls : list Listener) (x : Q) : Eff unit :=
  match ls with
  | [] => ret tt
  | l :: ls' => listener l x ;; callListeners ls' x
  end.

(** [onPanResponderMove] (lines 291-293): [undefined] when disabled,
    otherwise [Animated.event] writes [moveX] into [pointerX]. *)
Definition onPanResponderMove (r : Render) (moveX : Q) : Eff unit :=
  if Props.disabled (props r) then ret tt
  else ls <- read pointerX ;; callListeners ls moveX.

(** [onPanResponderRelease] (lines 295-299). *)
Definition onPanResponderRelease (r : Render) : Eff unit :=
  setPressed false ;;
  p <- read inPropsRef ;;
  call (onSliderTouchEnd (InProps.low p) (InProps.high p)).

(** [const trueFunc = () => true; const falseFunc = () => false;] *)
Definition trueFunc : Eff bool := ret true.
Definition falseFunc : Eff bool := ret false.

(** Lines 203-204. *)
Definition onPanResponderTerminationRequest (r : Render) : Eff bool := falseFunc.
Definition onPanResponderTerminate (r : Render) : Eff bool := trueFunc.

(** What the host gesture system delivers to the pan handlers. *)
Inductive Event :=
| Grant (locationX pageX : Q) (numberActiveTouches : nat)
| Move (moveX : Q)
| Release
| TerminationRequest
| Terminate.

Definition dispatch (r : Render) (e : Event) : Eff unit :=
  match e with
  | Grant locationX pageX n => onPanResponderGrant r locationX pageX n
  | Move moveX => onPanResponderMove r moveX
  | Release => onPanResponderRelease r
  | TerminationRequest => _ <- onPanResponderTerminationRequest r ;; ret tt
  | Terminate => _ <- onPanResponderTerminate r ;; ret tt
  end.

(** A sequence of events handled by the pan handlers of one render. *)
Fixpoint dispatchAll (r : Render) (es : list Event) : Eff unit :=
  match es with
  | [] => ret tt
  | e :: es' => dispatch r e ;; dispatchAll r es'
  end.

End Slider.

(** The world that an accepted change of the active thumb to [value]
    leaves behind (lines 264-281 of [handlePositionChange]); used to state
    what the handler does. *)
Definition accepted (l : Listener) (value : Q) (w : World) : World :=
  let p := inPropsRef w in
  let offset :=
    positionForValue value (InProps.min p) (InProps.max p)
                     (l_containerWidth l - thumbWidth (l_render l)) in
  let lastPosition := offset + thumbWidth (l_render l) / 2 in
  mkWorld
    (if l_isLow l then InProps.withLow value p else InProps.withHigh value p)
    (GestureState.mk (GestureState.isLow (gestureStateRef w)) value lastPosition)
    (isPressed w)
    (containerWidthRef w)
    (if l_isLow l then offset else lowThumbX w)
    (if l_isLow l then highThumbX w else offset)
    (pointerX w)
    (calls w ++
       [onValueChanged (if l_isLow l then value else InProps.low p)
                       (if l_isLow l then InProps.high p else value) true;
        labelUpdate lastPosition value;
        notchUpdate lastPosition value;
        updateSelectedRail]).

(** How many times the host's change callback was invoked with
    [byUser = true] in a list of calls. *)
Fixpoint userChanges (cs : list Call) : nat :=
  match cs with
  | [] => 0%nat
  | onValueChanged _ _ true :: cs' => S (userChanges cs')
  | _ :: cs' => userChanges cs'
  end.

(** The thumb that [onPanResponderGrant] of render [r] selects for a touch
    at [downX] (lines 229-241), and the listener it registers. *)
Definition grantIsLow (isLowCloser : Q -> Q -> Q -> bool)
    (r : Render) (downX : Q) (w : World) : bool :=
  let p := inPropsRef w in
  let space := containerWidthRef w - thumbWidth r in
  Props.disableRange (props r)
  || isLowCloser downX
       (thumbWidth r / 2
        + positionForValue (InProps.low p) (InProps.min p) (InProps.max p) space)
       (thumbWidth r / 2
        + positionForValue (InProps.high p) (InProps.min p) (InProps.max p) space).

Definition grantListener (isLowCloser : Q -> Q -> Q -> bool)
    (r : Render) (locationX pageX : Q) (w : World) : Listener :=
  mkListener r (grantIsLow isLowCloser r locationX w) (containerWidthRef w)
             (pageX - locationX).

(** The world of an accepted touch-down just before its first position is
    processed (lines 220-242): pressed, the host told, the thumb chosen. *)
Definition touched (isLow : bool) (w : World) : World :=
  mkWorld (inPropsRef w)
    (GestureState.mk isLow (GestureState.lastValue (gestureStateRef w))
                     (GestureState.lastPosition (gestureStateRef w)))
    true (containerWidthRef w) (lowThumbX w) (highThumbX w) (pointerX w)
    (calls w ++ [onSliderTouchStart (InProps.low (inPropsRef w))
                                    (InProps.high (inPropsRef w))]).

(** [w] with the listener table of [pointerX] replaced. *)
Definition withListeners (ls : list Listener) (w : World) : World :=
  mkWorld (inPropsRef w) (gestureStateRef w) (isPressed w)
    (containerWidthRef w) (lowThumbX w) (highThumbX w) ls (calls w).

(** Every registered listener was created with minimum separation [mr]. *)
Definition listenersWith (mr : Q) (w : World) : Prop :=
  Forall (fun l => Props.minRange (props (l_render l)) = mr) (pointerX w).

(** The two calls that one effective run of [updateThumbs] makes. *)
Definition resyncCalls (w : World) : list Call :=
  [updateSelectedRail;
   onValueChanged (InProps.low (inPropsRef w)) (InProps.high (inPropsRef w))
                  false].

(** [w'] differs from [w] at most in the thumb offsets and the calls made:
    the store, the gesture state, the pressed flag, the measured width and
    the listeners are the same. *)
Definition sameSession (w w' : World) : Prop :=
  inPropsRef w' = inPropsRef w
  /\ gestureStateRef w' = gestureStateRef w
  /\ isPressed w' = isPressed w
  /\ containerWidthRef w' = containerWidthRef w
  /\ pointerX w' = pointerX w.

(** ** Concrete inputs

    A slider over [0, 100] with step 1 and a thumb 20 wide; in a container
    120 wide the available space is 100, so a pixel offset and the value it
    stands for are the same number. *)

Definition props0 : Props.t := Props.mk 0 100 0 1 None None false false 0%nat.

Definition render0 : Render := mkRender props0 20 20 80 0%nat 0%nat.

(** The same render before the thumb has been measured. *)
Definition render_unmeasured : Render := mkRender props0 0 20 80 0%nat 0%nat.

Definition store0 : InProps.t := InProps.mk 20 80 0 100 1.

(** A slider at rest, never touched so far, whose store holds [low = 20],
    [high = 80] and whose container is [cw] wide. *)
Definition world0 (cw : Q) : World :=
  mkWorld store0 GestureState.initial false cw 0 0 [] [].

(** The session that a touch on the low thumb starts in [render0] when the
    container is 120 wide and starts at the left edge of the page. *)
Definition listener0 : Listener := mkListener render0 true 120 0.



(** [render0] with [disabled = true]. *)
Definition render_disabled : Render :=
  mkRender (Props.mk 0 100 0 1 None None false true 0%nat) 20 20 80 0%nat 0%nat.

(** A tap at 45 on the slider at rest, and the same tap released. *)
Definition world_dragging : World :=
  exec (onPanResponderGrant getValueForPosition_spec isLowCloser_spec
          render0 45 45 1) (world0 120).
Definition world_released : World :=
  exec (onPanResponderRelease render0) world_dragging.

(** The host changes the controlled [low] from 20 to 50: the render before
    the change, the render after it (in which [useLowHigh] hands over the
    previous [low = 20]), and the world that render runs its effects in,
    the store already holding the new value. *)
Definition render_low20 : Render :=
  mkRender (Props.mk 0 100 0 1 (Some 20) (Some 80) false false 0%nat)
           20 20 80 0%nat 0%nat.
Definition render_low50 : Render :=
  mkRender (Props.mk 0 100 0 1 (Some 50) (Some 80) false false 0%nat)
           20 20 80 1%nat 0%nat.
Definition world_low50 : World :=
  mkWorld (InProps.mk 50 80 0 100 1) GestureState.initial false 120 20 80 [] [].

(** ** Further parts of the component *)

(** [onMoveShouldSetPanResponder] (lines 207-210):
    [Math.abs(gestureState.dx) > 2 * Math.abs(gestureState.dy)]. *)
Definition onMoveShouldSetPanResponder (dx dy : Q) : bool :=
  negb (Qle_bool (Qabs dx) (2 * Qabs dy)).

(** The render that follows [setThumbWidth(width)]. *)
Definition withThumbWidth (width : Q) (r : Render) : Render :=
  mkRender (props r) width (lowPrev r) (highPrev r) (inPropsRefPrevId r)
           (updateSelectedRailId r).

(** The arguments of the latest [onValueChanged(low, high, true)] in a list
    of calls. *)
Definition lastUserChange (cs : list Call) : option (Q * Q) :=
  fold_left
    (fun acc c =>
       match c with
       | onValueChanged low high true => Some (low, high)
       | _ => acc
       end)
    cs None.

(** How many of the events reach [handlePositionChange] at all: the
    touch-downs and the moves. *)
Fixpoint pointerEvents (es : list Event) : nat :=
  match es with
  | [] => 0%nat
  | Grant _ _ _ :: es' => S (pointerEvents es')
  | Move _ :: es' => S (pointerEvents es')
  | _ :: es' => pointerEvents es'
  end.

(** Both thumb offsets are the interpolation of the stored values, for a
    thumb [tw] wide in the measured container. *)
Definition thumbsReflectStore (tw : Q) (w : World) : Prop :=
  let p := inPropsRef w in
  let space := containerWidthRef w - tw in
  lowThumbX w
    = positionForValue (InProps.low p) (InProps.min p) (InProps.max p) space
  /\ highThumbX w
     = positionForValue (InProps.high p) (InProps.min p) (InProps.max p) space.

(** Every registered listener was created for the measured container
    width and a thumb [tw] wide. *)
Definition listenersCurrent (tw : Q) (w : World) : Prop :=
  Forall (fun l => l_containerWidth l = containerWidthRef w
                   /\ thumbWidth (l_render l) = tw) (pointerX w).

(** Every registered listener drives the low thumb. *)
Definition listenersAllLow (w : World) : Prop :=
  Forall (fun l => l_isLow l = true) (pointerX w).

(** Every registered listener drives the thumb that [gestureStateRef]
    names. *)
Definition listenersMatchGesture (w : World) : Prop :=
  Forall (fun l => l_isLow l = GestureState.isLow (gestureStateRef w))
         (pointerX w).

(** The calls of one accepted change (lines 271-281), for the active
    thumb [isLow], the store [p] before the change, the new [value] and
    the thumb centre [position]. *)
Definition changeCalls (isLow : bool) (p : InProps.t) (value position : Q)
  : list Call :=
  [onValueChanged (if isLow then value else InProps.low p)
                  (if isLow then InProps.high p else value) true;
   labelUpdate position value;
   notchUpdate position value;
   updateSelectedRail].

(** The latest change reported to the host with [byUser = true], if there
    is one, is the pair that the store holds. *)
Definition notifiedStore (w : World) : Prop :=
  match lastUserChange (calls w) with
  | Some (low, high) =>
      low = InProps.low (inPropsRef w) /\ high = InProps.high (inPropsRef w)
  | None => True
  end.

(** How often [onSliderTouchStart] and [onSliderTouchEnd] occur in a list
    of calls. *)
Fixpoint touchStarts (cs : list Call) : nat :=
  match cs with
  | [] => 0%nat
  | onSliderTouchStart _ _ :: cs' => S (touchStarts cs')
  | _ :: cs' => touchStarts cs'
  end.

Fixpoint touchEnds (cs : list Call) : nat :=
  match cs with
  | [] => 0%nat
  | onSliderTouchEnd _ _ :: cs' => S (touchEnds cs')
  | _ :: cs' => touchEnds cs'
  end.

(** The releases among the events, and the touch-downs that pass the
    guards of [onPanResponderGrant] of render [r] (lines 213-219). *)
Fixpoint releases (es : list Event) : nat :=
  match es with
  | [] => 0%nat
  | Release :: es' => S (releases es')
  | _ :: es' => releases es'
  end.

Fixpoint acceptedGrants (r : Render) (es : list Event) : nat :=
  match es with
  | [] => 0%nat
  | Grant _ _ n :: es' =>
      if Props.disabled (props r) || Nat.ltb 1 n then acceptedGrants r es'
      else S (acceptedGrants r es')
  | _ :: es' => acceptedGrants r es'
  end.

(** [render0] in single-thumb mode. *)
Definition render_single : Render :=
  mkRender (Props.mk 0 100 0 1 None None true false 0%nat) 20 20 80 0%nat 0%nat.

(** The slider at rest after [updateThumbs] has positioned both thumbs. *)
Definition world_synced : World :=
  mkWorld store0 GestureState.initial false 120
    (positionForValue 20 0 100 (120 - 20))
    (positionForValue 80 0 100 (120 - 20)) [] [].

(** ** The session bounds in machine arithmetic

    JavaScript evaluates [low + minRange] and [high - minRange] (lines
    247-248) in binary64: the exact sum or difference is rounded to the
    nearest number of the format.  Comparisons, [Math.min] and [Math.max]
    are exact.  The store transition of one accepted change is given
    twice more: over the rationals with the two bounds passed through a
    rounding [rnd], and over Rocq's binary64 numbers. *)









(** * Properties *)

(** Unfolds the monad and the primitive effects, leaving the tests of the
    source as the only stuck terms. *)
Ltac step_eff :=
  cbv beta iota zeta delta
    [exec bind ret read update unless call setPressed setInProps setLow
     setHigh setGestureState lowThumbX_setValue highThumbX_setValue
     setListeners removeAllListeners addListener trueFunc falseFunc
     fst snd].

(** Reduces the projections of a [World] that is given by its fields. *)
Ltac world_proj :=
  cbn [inPropsRef gestureStateRef isPressed containerWidthRef lowThumbX
       highThumbX pointerX calls].

Lemma falsy_true (x : Q) : falsy x = true <-> x == 0.
Proof. unfold falsy. apply Qeq_bool_iff. Qed.

Lemma falsy_false (x : Q) : falsy x = false <-> ~ x == 0.
Proof.
  unfold falsy. split.
  - apply Qeq_bool_neq.
  - intros H. destruct (Qeq_bool x 0) eqn:E; [|reflexivity].
    apply Qeq_bool_iff in E. contradiction.
Qed.

(** ** Layout guard of [updateThumbs] *)

Lemma updateThumbs_no_layout r w :
  falsy (thumbWidth r) || falsy (containerWidthRef w) = true ->
  updateThumbs r w = (tt, w).
Proof.
  intros H. unfold updateThumbs. step_eff. rewrite H. reflexivity.
Qed.

Lemma updateThumbs_layout r w :
  falsy (thumbWidth r) || falsy (containerWidthRef w) = false ->
  let p := inPropsRef w in
  let space := containerWidthRef w - thumbWidth r in
  let w' := exec (updateThumbs r) w in
  lowThumbX w' =
    positionForValue (InProps.low p) (Props.min (props r)) (Props.max (props r)) space
  /\ highThumbX w' =
       (if Props.disableRange (props r) then highThumbX w
        else positionForValue (InProps.high p) (Props.min (props r))
                              (Props.max (props r)) space)
  /\ calls w' =
       calls w ++ [updateSelectedRail;
                   onValueChanged (InProps.low p) (InProps.high p) false]
  /\ inPropsRef w' = inPropsRef w
  /\ gestureStateRef w' = gestureStateRef w
  /\ isPressed w' = isPressed w
  /\ containerWidthRef w' = containerWidthRef w
  /\ pointerX w' = pointerX w.
Proof.
  intros H. unfold updateThumbs. step_eff. rewrite H.
  destruct (Props.disableRange (props r)); cbn [negb]; step_eff;
    cbn [lowThumbX highThumbX calls inPropsRef gestureStateRef isPressed
         containerWidthRef pointerX];
    rewrite <- app_assoc; repeat split; reflexivity.
Qed.

(** C9.  When [containerWidth] or [thumbWidth] is zero, [updateThumbs],
    which is the thumb position recomputation, the selected-rail update and
    the [byUser = false] notification, changes nothing; as soon as both are
    non-zero (in particular positive) it sets the thumbs, updates the
    selected rail and notifies the host. *)
Theorem C9_updateThumbs_noop_until_layout (r : Render) (w : World) :
  (containerWidthRef w == 0 \/ thumbWidth r == 0 ->
   exec (updateThumbs r) w = w)
  /\ (~ containerWidthRef w == 0 -> ~ thumbWidth r == 0 ->
      let p := inPropsRef w in
      let space := containerWidthRef w - thumbWidth r in
      let w' := exec (updateThumbs r) w in
      lowThumbX w' =
        positionForValue (InProps.low p) (Props.min (props r))
                         (Props.max (props r)) space
      /\ (Props.disableRange (props r) = false ->
          highThumbX w' =
            positionForValue (InProps.high p) (Props.min (props r))
                             (Props.max (props r)) space)
      /\ calls w' =
           calls w ++ [updateSelectedRail;
                       onValueChanged (InProps.low p) (InProps.high p) false]).
Proof.
  split.
  - intros H. unfold exec. rewrite updateThumbs_no_layout; [reflexivity|].
    apply orb_true_iff. destruct H as [H|H]; [right|left];
      apply falsy_true; exact H.
  - intros Hc Ht.
    assert (G : falsy (thumbWidth r) || falsy (containerWidthRef w) = false).
    { apply orb_false_iff. split; apply falsy_false; assumption. }
    destruct (updateThumbs_layout r w G) as (Hl & Hh & Hcalls & _).
    cbv zeta. repeat split; try assumption.
    intros Hd. rewrite Hh, Hd. reflexivity.
Qed.

Lemma C9_witness :
  exec (updateThumbs render_unmeasured) (world0 120)
    = world0 120
  /\ calls (exec (updateThumbs render0) (world0 120))
     = [updateSelectedRail; onValueChanged 20 80 false].
Proof.
  split.
  - apply (proj1 (C9_updateThumbs_noop_until_layout
                    render_unmeasured (world0 120))).
    right. reflexivity.
  - apply (proj2 (C9_updateThumbs_noop_until_layout render0 (world0 120)));
      intros H; vm_compute in H; discriminate.
Defined.

(** ** The linear interpolation *)

Lemma positionForValue_bounds (value min max space : Q) :
  min < max -> 0 <= space -> min <= value <= max ->
  0 <= positionForValue value min max space <= space.
Proof.
  intros Hmm Hs [Hlo Hhi]. unfold positionForValue.
  assert (Hd : 0 < max - min) by lra.
  assert (H0 : 0 <= (value - min) / (max - min)).
  { apply Qle_shift_div_l; [exact Hd | lra]. }
  assert (H1 : (value - min) / (max - min) <= 1).
  { apply Qle_shift_div_r; [exact Hd | lra]. }
  split.
  - apply Qmult_le_0_compat; assumption.
  - setoid_replace space with (1 * space) at 2 by ring.
    apply Qmult_le_compat_r; assumption.
Qed.

(** ** [handlePositionChange]: the two outcomes *)

Section HandlePositionChange.

Variable gv : Q -> Q -> Q -> Q -> Q -> Q -> Q.

(** The value repeats the last recorded one: the early [return]. *)
Lemma handlePositionChange_skip l pos w :
  (GestureState.lastValue (gestureStateRef w)
     === moveValue gv l pos (inPropsRef w)) = true ->
  handlePositionChange gv l pos w = (tt, w).
Proof.
  intros H. unfold handlePositionChange. step_eff. rewrite H. reflexivity.
Qed.

Lemma handlePositionChange_accept l pos w :
  (GestureState.lastValue (gestureStateRef w)
     === moveValue gv l pos (inPropsRef w)) = false ->
  handlePositionChange gv l pos w
  = (tt, accepted l (moveValue gv l pos (inPropsRef w)) w).
Proof.
  intros H. unfold handlePositionChange. step_eff. rewrite H.
  unfold accepted.
  destruct (l_isLow l); step_eff;
    cbn [lowThumbX highThumbX calls inPropsRef gestureStateRef isPressed
         containerWidthRef pointerX];
    repeat rewrite <- app_assoc; reflexivity.
Qed.

Lemma handlePositionChange_cases l pos w :
  exec (handlePositionChange gv l pos) w = w
  \/ exec (handlePositionChange gv l pos) w
     = accepted l (moveValue gv l pos (inPropsRef w)) w.
Proof.
  unfold exec.
  destruct (GestureState.lastValue (gestureStateRef w)
              === moveValue gv l pos (inPropsRef w)) eqn:E.
  - left. rewrite handlePositionChange_skip by exact E. reflexivity.
  - right. rewrite handlePositionChange_accept by exact E. reflexivity.
Qed.

End HandlePositionChange.

Lemma userChanges_app (cs ds : list Call) :
  userChanges (cs ++ ds) = (userChanges cs + userChanges ds)%nat.
Proof.
  induction cs as [|c cs IH]; [reflexivity|].
  destruct c as [| ? ? [|] | | | |]; cbn [app userChanges]; rewrite IH; reflexivity.
Qed.

Lemma strictEq_true (a b : Q) : (a === b) = true <-> a == b.
Proof. apply Qeq_bool_iff. Qed.

Lemma strictEq_false (a b : Q) : (a === b) = false <-> ~ a == b.
Proof.
  unfold strictEq. split.
  - apply Qeq_bool_neq.
  - intros H. destruct (Qeq_bool a b) eqn:E; [|reflexivity].
    apply Qeq_bool_iff in E. contradiction.
Qed.

(** ** De-duplication *)

Section Deduplication.

Variable gv : Q -> Q -> Q -> Q -> Q -> Q -> Q.

Lemma accepted_userChanges l v w :
  userChanges (calls (accepted l v w)) = S (userChanges (calls w)).
Proof.
  unfold accepted. cbn [calls]. rewrite userChanges_app.
  cbn [userChanges]. lia.
Qed.

Lemma accepted_lastValue l v w :
  GestureState.lastValue (gestureStateRef (accepted l v w)) = v.
Proof. reflexivity. Qed.

(** A move through [pointerX] with one registered listener is one call of
    that session's [handlePositionChange]. *)
Lemma onPanResponderMove_single r l x w :
  Props.disabled (props r) = false -> pointerX w = [l] ->
  exec (onPanResponderMove gv r x) w
  = exec (handlePositionChange gv l (x - l_containerX l)) w.
Proof.
  intros Hd Hl. unfold onPanResponderMove, exec. rewrite Hd.
  cbv beta iota zeta delta [bind read]. rewrite Hl.
  cbv beta iota zeta delta [callListeners listener bind ret].
  destruct (handlePositionChange gv l (x - l_containerX l) w) as [[] w'].
  reflexivity.
Qed.

Lemma handlePositionChange_pointerX l pos w :
  pointerX (exec (handlePositionChange gv l pos) w) = pointerX w.
Proof.
  destruct (handlePositionChange_cases gv l pos w) as [E|E]; rewrite E;
    reflexivity.
Qed.

Lemma two_changes_same_value l1 pos1 l2 pos2 w :
  let w1 := exec (handlePositionChange gv l1 pos1) w in
  let w2 := exec (handlePositionChange gv l2 pos2) w1 in
  moveValue gv l1 pos1 (inPropsRef w) == moveValue gv l2 pos2 (inPropsRef w1) ->
  (userChanges (calls w2) <= S (userChanges (calls w)))%nat.
Proof.
  intros w1 w2 Hv. subst w2.
  destruct (GestureState.lastValue (gestureStateRef w)
              === moveValue gv l1 pos1 (inPropsRef w)) eqn:E1.
  - (* first one skipped: the second sees the same last value *)
    assert (Hw1 : w1 = w).
    { subst w1. unfold exec. rewrite handlePositionChange_skip by exact E1.
      reflexivity. }
    rewrite Hw1 in *.
    unfold exec. rewrite handlePositionChange_skip; [cbn [snd]; lia|].
    apply strictEq_true. apply strictEq_true in E1. rewrite E1. exact Hv.
  - (* first one accepted: it records the value, the second is skipped *)
    assert (Hw1 : w1 = accepted l1 (moveValue gv l1 pos1 (inPropsRef w)) w).
    { subst w1. unfold exec. rewrite handlePositionChange_accept by exact E1.
      reflexivity. }
    unfold exec. rewrite handlePositionChange_skip.
    + cbn [snd]. rewrite Hw1, accepted_userChanges. lia.
    + apply strictEq_true. rewrite Hw1 at 1. rewrite accepted_lastValue.
      exact Hv.
Qed.

(** C3.  When the value computed for a move equals the session's last
    recorded value, [handlePositionChange] leaves everything as it was: no
    thumb is positioned, the store is not written and no callback is made.
    Hence two consecutive moves that compute the same value make the host's
    change callback fire at most once, also when they arrive as two move
    events on [pointerX]. *)
Theorem C3_repeated_value_skipped (l : Listener) (pos : Q) (w : World) :
  (GestureState.lastValue (gestureStateRef w)
     == moveValue gv l pos (inPropsRef w) ->
   exec (handlePositionChange gv l pos) w = w)
  /\ (forall pos2,
        let w1 := exec (handlePositionChange gv l pos) w in
        let w2 := exec (handlePositionChange gv l pos2) w1 in
        moveValue gv l pos (inPropsRef w) == moveValue gv l pos2 (inPropsRef w1) ->
        (userChanges (calls w2) <= S (userChanges (calls w)))%nat)
  /\ (forall r x1 x2,
        Props.disabled (props r) = false -> pointerX w = [l] ->
        let w1 := exec (onPanResponderMove gv r x1) w in
        let w2 := exec (onPanResponderMove gv r x2) w1 in
        moveValue gv l (x1 - l_containerX l) (inPropsRef w)
          == moveValue gv l (x2 - l_containerX l) (inPropsRef w1) ->
        (userChanges (calls w2) <= S (userChanges (calls w)))%nat).
Proof.
  split; [|split].
  - intros H. unfold exec. rewrite handlePositionChange_skip; [reflexivity|].
    apply strictEq_true. exact H.
  - intros pos2. apply two_changes_same_value.
  - intros r x1 x2 Hd Hl w1 w2 Hv. subst w2 w1.
    rewrite (onPanResponderMove_single r l x1 w Hd Hl) in *.
    rewrite (onPanResponderMove_single r l x2) in *;
      [|exact Hd|rewrite handlePositionChange_pointerX; exact Hl].
    apply two_changes_same_value. exact Hv.
Qed.

End Deduplication.

Lemma C3_witness :
  let gv := getValueForPosition_spec in
  let w := exec (handlePositionChange gv listener0 45) (world0 120) in
  exec (handlePositionChange gv listener0 45) w = w
  /\ (userChanges (calls (exec (handlePositionChange gv listener0 (181 # 4))
                            (exec (handlePositionChange gv listener0 45) w)))
      <= S (userChanges (calls w)))%nat.
Proof.
  intros gv w. split.
  - apply (proj1 (C3_repeated_value_skipped gv listener0 45 w)).
    vm_compute. reflexivity.
  - apply (proj1 (proj2 (C3_repeated_value_skipped gv listener0 45 w))).
    vm_compute. reflexivity.
Defined.

(** ** Session bounds *)





(** ** Pixel offsets of the thumbs *)

Lemma positionForValue_linear_bounded (value cw tw min max : Q) :
  min < max -> tw <= cw -> min <= value <= max ->
  positionForValue value min max (cw - tw)
    == (value - min) / (max - min) * (cw - tw)
  /\ 0 <= positionForValue value min max (cw - tw) <= cw - tw.
Proof.
  intros Hmm Hw Hv. split.
  - reflexivity.
  - apply positionForValue_bounds; [exact Hmm | lra | exact Hv].
Qed.

(** C6.  For [min < max], [containerWidth >= thumbWidth] and a value in
    [[min, max]], the offset [(value - min) / (max - min) *
    (containerWidth - thumbWidth)] lies in [[0, containerWidth -
    thumbWidth]]; it is the offset that [updateThumbs] gives the low thumb
    (for the stored [low]) and the high thumb (for the stored [high], in
    range mode), and that an accepted [handlePositionChange] gives the
    active thumb (for the value of the move). *)
Theorem C6_thumb_offset_linear_and_bounded :
  (forall value cw tw min max : Q,
      min < max -> tw <= cw -> min <= value <= max ->
      positionForValue value min max (cw - tw)
        == (value - min) / (max - min) * (cw - tw)
      /\ 0 <= positionForValue value min max (cw - tw) <= cw - tw)
  /\ (forall (r : Render) (w : World),
        let cw := containerWidthRef w in
        let tw := thumbWidth r in
        let min := Props.min (props r) in
        let max := Props.max (props r) in
        let low := InProps.low (inPropsRef w) in
        let high := InProps.high (inPropsRef w) in
        let w' := exec (updateThumbs r) w in
        ~ cw == 0 -> ~ tw == 0 -> min < max -> tw <= cw ->
        (min <= low <= max ->
         lowThumbX w' == (low - min) / (max - min) * (cw - tw)
         /\ 0 <= lowThumbX w' <= cw - tw)
        /\ (Props.disableRange (props r) = false -> min <= high <= max ->
            highThumbX w' == (high - min) / (max - min) * (cw - tw)
            /\ 0 <= highThumbX w' <= cw - tw))
  /\ (forall (gv : Q -> Q -> Q -> Q -> Q -> Q -> Q)
             (l : Listener) (pos : Q) (w : World),
        let cw := l_containerWidth l in
        let tw := thumbWidth (l_render l) in
        let min := InProps.min (inPropsRef w) in
        let max := InProps.max (inPropsRef w) in
        let value := moveValue gv l pos (inPropsRef w) in
        let w' := exec (handlePositionChange gv l pos) w in
        let offset := if l_isLow l then lowThumbX w' else highThumbX w' in
        ~ GestureState.lastValue (gestureStateRef w) == value ->
        min < max -> tw <= cw -> min <= value <= max ->
        offset == (value - min) / (max - min) * (cw - tw)
        /\ 0 <= offset <= cw - tw).
Proof.
  split; [|split].
  - exact positionForValue_linear_bounded.
  - intros r w cw tw min max low high w' Hc Ht Hmm Hw.
    assert (G : falsy (thumbWidth r) || falsy (containerWidthRef w) = false).
    { apply orb_false_iff. split; apply falsy_false; assumption. }
    destruct (updateThumbs_layout r w G) as (Hl & Hh & _).
    subst w'. split.
    + intros Hv. rewrite Hl.
      apply positionForValue_linear_bounded; assumption.
    + intros Hd Hv. rewrite Hh, Hd.
      apply positionForValue_linear_bounded; assumption.
  - intros gv l pos w cw tw min max value w' offset Hne Hmm Hw Hv.
    assert (E : w' = accepted l value w).
    { subst w'. unfold exec. rewrite handlePositionChange_accept;
        [reflexivity | apply strictEq_false; exact Hne]. }
    assert (Ho : offset = positionForValue value min max (cw - tw)).
    { subst offset. rewrite E. unfold accepted.
      destruct (l_isLow l); reflexivity. }
    rewrite Ho. apply positionForValue_linear_bounded; assumption.
Qed.

Lemma C6_witness :
  (positionForValue 20 0 100 (120 - 20) == (20 - 0) / (100 - 0) * (120 - 20)
   /\ 0 <= positionForValue 20 0 100 (120 - 20) <= 120 - 20)
  /\ 0 <= highThumbX (exec (updateThumbs render0) (world0 120)) <= 120 - 20
  /\ 0 <= lowThumbX (exec (handlePositionChange getValueForPosition_spec
                             listener0 45) (world0 120)) <= 120 - 20.
Proof.
  destruct C6_thumb_offset_linear_and_bounded as (A & B & C).
  split; [|split].
  - apply A; [reflexivity | vm_compute; discriminate
              | split; vm_compute; discriminate].
  - apply (B render0 (world0 120)).
    + intros H; vm_compute in H; discriminate.
    + intros H; vm_compute in H; discriminate.
    + reflexivity.
    + vm_compute; discriminate.
    + reflexivity.
    + split; vm_compute; discriminate.
  - apply (C getValueForPosition_spec listener0 45 (world0 120)).
    + intros H; vm_compute in H; discriminate.
    + reflexivity.
    + vm_compute; discriminate.
    + split; vm_compute; discriminate.
Defined.

(** ** The pan handlers *)

Lemma exec_bind {A B} (m : Eff A) (k : A -> Eff B) (w : World) :
  exec (bind m k) w = exec (k (fst (m w))) (exec m w).
Proof. unfold exec, bind. destruct (m w). reflexivity. Qed.

Lemma exec_ret {A} (a : A) (w : World) : exec (ret a) w = w.
Proof. reflexivity. Qed.

Section PanHandlers.

Variable gv : Q -> Q -> Q -> Q -> Q -> Q -> Q.
Variable ilc : Q -> Q -> Q -> bool.

Lemma onPanResponderGrant_ignored r lx px n w :
  Props.disabled (props r) = true \/ (1 < n)%nat ->
  onPanResponderGrant gv ilc r lx px n w = (tt, w).
Proof.
  intros H. unfold onPanResponderGrant, unless.
  destruct (Props.disabled (props r)); [reflexivity|].
  destruct H as [H|H]; [discriminate|].
  apply Nat.ltb_lt in H. rewrite H. reflexivity.
Qed.

Lemma onPanResponderGrant_started r lx px n w :
  Props.disabled (props r) = false -> (n <= 1)%nat ->
  let l := grantListener ilc r lx px w in
  exec (onPanResponderGrant gv ilc r lx px n) w
  = withListeners [l]
      (exec (handlePositionChange gv l lx) (touched (l_isLow l) w)).
Proof.
  intros Hd Hn l. unfold onPanResponderGrant, unless. rewrite Hd.
  assert (Hn' : Nat.ltb 1 n = false) by (apply Nat.ltb_ge; exact Hn).
  rewrite Hn'. subst l.
  unfold grantListener, grantIsLow, touched, withListeners.
  step_eff. world_proj. cbn [l_isLow].
  match goal with
  | |- context [handlePositionChange gv ?l0 lx ?w0] =>
      destruct (handlePositionChange gv l0 lx w0) as [[] w']
  end.
  reflexivity.
Qed.

Lemma callListeners_cons l ls x w :
  exec (callListeners gv (l :: ls) x) w
  = exec (callListeners gv ls x)
         (exec (handlePositionChange gv l (x - l_containerX l)) w).
Proof.
  cbn [callListeners]. rewrite exec_bind. reflexivity.
Qed.

Lemma onPanResponderMove_exec r x w :
  exec (onPanResponderMove gv r x) w
  = if Props.disabled (props r) then w
    else exec (callListeners gv (pointerX w) x) w.
Proof.
  unfold onPanResponderMove. destruct (Props.disabled (props r));
    [reflexivity|]. rewrite exec_bind. reflexivity.
Qed.

Lemma onPanResponderRelease_exec r w :
  exec (onPanResponderRelease r) w
  = mkWorld (inPropsRef w) (gestureStateRef w) false (containerWidthRef w)
      (lowThumbX w) (highThumbX w) (pointerX w)
      (calls w ++ [onSliderTouchEnd (InProps.low (inPropsRef w))
                                    (InProps.high (inPropsRef w))]).
Proof. reflexivity. Qed.

Lemma dispatchAll_cons r e es w :
  exec (dispatchAll gv ilc r (e :: es)) w
  = exec (dispatchAll gv ilc r es) (exec (dispatch gv ilc r e) w).
Proof. cbn [dispatchAll]. rewrite exec_bind. reflexivity. Qed.

End PanHandlers.

(** ** Invariants of the pan handlers *)

Lemma accepted_withListeners ls l v w :
  withListeners ls (accepted l v w) = accepted l v (withListeners ls w).
Proof. reflexivity. Qed.

(** A property of the world survives every event when it survives the
    three ways in which a handler changes the world: an accepted
    touch-down before its first position, an accepted change made by a
    registered listener, and a release. *)
Section HandlerInvariant.

Variable gv : Q -> Q -> Q -> Q -> Q -> Q -> Q.
Variable ilc : Q -> Q -> Q -> bool.
Variable r : Render.
Variable Inv : World -> Prop.

Hypothesis Inv_touch : forall w lx px,
  Props.disabled (props r) = false -> Inv w ->
  Inv (withListeners [grantListener ilc r lx px w]
                     (touched (grantIsLow ilc r lx w) w)).
Hypothesis Inv_accepted : forall w l pos,
  Inv w -> In l (pointerX w) ->
  Inv (accepted l (moveValue gv l pos (inPropsRef w)) w).
Hypothesis Inv_release : forall w,
  Inv w -> Inv (exec (onPanResponderRelease r) w).

Lemma handlePositionChange_invariant l pos w :
  Inv w -> In l (pointerX w) -> Inv (exec (handlePositionChange gv l pos) w).
Proof.
  intros H Hin.
  destruct (handlePositionChange_cases gv l pos w) as [E|E]; rewrite E.
  - exact H.
  - apply Inv_accepted; assumption.
Qed.

Lemma callListeners_invariant ls x :
  forall w, Inv w -> incl ls (pointerX w) ->
            Inv (exec (callListeners gv ls x) w).
Proof.
  induction ls as [|l ls IH]; intros w H Hin; [exact H|].
  rewrite callListeners_cons. apply IH.
  - apply handlePositionChange_invariant; [exact H|].
    apply Hin. left. reflexivity.
  - rewrite handlePositionChange_pointerX.
    intros l' Hl'. apply Hin. right. exact Hl'.
Qed.

Lemma dispatch_invariant e w :
  Inv w -> Inv (exec (dispatch gv ilc r e) w).
Proof.
  intros H. destruct e as [lx px n | x | | |]; cbn [dispatch];
    try exact H.
  - destruct (Bool.bool_dec (Props.disabled (props r)) true) as [Hd|Hd].
    { unfold exec. rewrite onPanResponderGrant_ignored by (left; exact Hd).
      exact H. }
    apply not_true_is_false in Hd.
    destruct (Nat.le_gt_cases n 1) as [Hn|Hn].
    + rewrite onPanResponderGrant_started by assumption.
      set (l := grantListener ilc r lx px w).
      change (l_isLow l) with (grantIsLow ilc r lx w).
      pose proof (Inv_touch w lx px Hd H) as Ht. fold l in Ht.
      destruct (handlePositionChange_cases gv l lx
                  (touched (grantIsLow ilc r lx w) w)) as [E|E]; rewrite E.
      * exact Ht.
      * rewrite accepted_withListeners.
        apply (Inv_accepted _ l lx Ht). left. reflexivity.
    + unfold exec. rewrite onPanResponderGrant_ignored by (right; exact Hn).
      exact H.
  - rewrite onPanResponderMove_exec.
    destruct (Bool.bool_dec (Props.disabled (props r)) true) as [Hd|Hd].
    + rewrite Hd. exact H.
    + apply not_true_is_false in Hd. rewrite Hd.
      apply callListeners_invariant; [exact H | apply incl_refl].
  - apply Inv_release. exact H.
Qed.

Lemma dispatchAll_invariant es :
  forall w, Inv w -> Inv (exec (dispatchAll gv ilc r es) w).
Proof.
  induction es as [|e es IH]; intros w H; [exact H|].
  rewrite dispatchAll_cons. apply IH. apply dispatch_invariant. exact H.
Qed.

End HandlerInvariant.

(** ** The order of the two values under drags *)

Section ValueOrder.

Variable gv : Q -> Q -> Q -> Q -> Q -> Q -> Q.
Variable ilc : Q -> Q -> Q -> bool.

Lemma accepted_ordered mr l pos w :
  0 <= mr -> Props.minRange (props (l_render l)) = mr ->
  InProps.low (inPropsRef w) <= InProps.high (inPropsRef w) ->
  InProps.high (inPropsRef w) <= InProps.max (inPropsRef w) ->
  let p' := inPropsRef (accepted l (moveValue gv l pos (inPropsRef w)) w) in
  InProps.low p' <= InProps.high p' /\ InProps.high p' <= InProps.max p'.
Proof.
  intros Hmr Hl H1 H2. cbv zeta. unfold accepted, moveValue, clamp.
  cbn [inPropsRef]. rewrite Hl.
  destruct (l_isLow l);
    cbn [InProps.withLow InProps.withHigh InProps.low InProps.high InProps.max].
  - split; [|exact H2].
    match goal with
    | |- Qmin ?a ?b <= _ => pose proof (Q.le_min_r a b)
    end. lra.
  - split.
    + apply Q.min_glb; [|lra].
      match goal with
      | |- _ <= Qmax ?a ?b => pose proof (Q.le_max_r a b)
      end. lra.
    + apply Q.le_min_r.
Qed.

Lemma dispatchAll_ordered r es w :
  let mr := Props.minRange (props r) in
  0 <= mr ->
  InProps.low (inPropsRef w) <= InProps.high (inPropsRef w) ->
  InProps.high (inPropsRef w) <= InProps.max (inPropsRef w) ->
  listenersWith mr w ->
  let p' := inPropsRef (exec (dispatchAll gv ilc r es) w) in
  InProps.low p' <= InProps.high p' /\ InProps.high p' <= InProps.max p'.
Proof.
  intros mr Hmr H1 H2 Hls. cbv zeta.
  cut (let w' := exec (dispatchAll gv ilc r es) w in
       (InProps.low (inPropsRef w') <= InProps.high (inPropsRef w')
        /\ InProps.high (inPropsRef w') <= InProps.max (inPropsRef w'))
       /\ listenersWith mr w').
  { intros [H _]. exact H. }
  cbv zeta.
  apply (dispatchAll_invariant gv ilc r
           (fun w' =>
              (InProps.low (inPropsRef w') <= InProps.high (inPropsRef w')
               /\ InProps.high (inPropsRef w') <= InProps.max (inPropsRef w'))
              /\ listenersWith mr w')).
  - intros w1 lx px _ [H _]. split; [exact H|].
    unfold listenersWith, withListeners. cbn [pointerX].
    constructor; [reflexivity | constructor].
  - intros w1 l pos [[A B] C] Hin. split; [|exact C].
    apply (accepted_ordered mr); try assumption.
    unfold listenersWith in C. rewrite Forall_forall in C.
    apply C. exact Hin.
  - intros w1 H. exact H.
  - split; [split; assumption | exact Hls].
Qed.

End ValueOrder.

(** *** The same under rounding *)

Section RoundedBounds.

Variable rnd : Q -> Q.
Hypothesis rnd_monotone : forall a b, a <= b -> rnd a <= rnd b.
Hypothesis rnd_idempotent : forall a, rnd (rnd a) == rnd a.






End RoundedBounds.






(** ** Listeners on the pointer stream *)

Section Listeners.

Variable gv : Q -> Q -> Q -> Q -> Q -> Q -> Q.
Variable ilc : Q -> Q -> Q -> bool.

Lemma callListeners_pointerX ls x :
  forall w, pointerX (exec (callListeners gv ls x) w) = pointerX w.
Proof.
  induction ls as [|l ls IH]; intros w; [reflexivity|].
  rewrite callListeners_cons, IH. apply handlePositionChange_pointerX.
Qed.

(** The listener table after any one event: replaced by the single
    listener of the new session on an accepted touch-down, untouched
    otherwise. *)
Lemma dispatch_pointerX r e w :
  pointerX (exec (dispatch gv ilc r e) w)
  = match e with
    | Grant lx px n =>
        if Props.disabled (props r) || Nat.ltb 1 n then pointerX w
        else [grantListener ilc r lx px w]
    | _ => pointerX w
    end.
Proof.
  destruct e as [lx px n | x | | |]; cbn [dispatch]; try reflexivity.
  - destruct (Props.disabled (props r)) eqn:Hd; cbn [orb].
    { unfold exec. rewrite onPanResponderGrant_ignored by (left; exact Hd).
      reflexivity. }
    destruct (Nat.ltb 1 n) eqn:Hn.
    + unfold exec. rewrite onPanResponderGrant_ignored;
        [reflexivity | right; apply Nat.ltb_lt; exact Hn].
    + rewrite onPanResponderGrant_started;
        [reflexivity | exact Hd | apply Nat.ltb_ge; exact Hn].
  - rewrite onPanResponderMove_exec.
    destruct (Props.disabled (props r)); [reflexivity|].
    apply callListeners_pointerX.
Qed.

Lemma dispatchAll_at_most_one r es :
  forall w, (length (pointerX w) <= 1)%nat ->
            (length (pointerX (exec (dispatchAll gv ilc r es) w)) <= 1)%nat.
Proof.
  induction es as [|e es IH]; intros w H; [exact H|].
  rewrite dispatchAll_cons. apply IH. rewrite dispatch_pointerX.
  destruct e as [lx px n | x | | |]; try exact H.
  destruct (Props.disabled (props r) || Nat.ltb 1 n); [exact H|].
  cbn [length]. lia.
Qed.

(** C10.  [pointerX] never carries more than one listener: a touch-down
    that starts a session replaces whatever was registered by the one
    listener of that session, and no other event changes the table; a move
    event therefore runs [handlePositionChange] once, for the session
    started last. *)
Theorem C10_single_pointer_listener (r : Render) :
  (forall es w,
      (length (pointerX w) <= 1)%nat ->
      (length (pointerX (exec (dispatchAll gv ilc r es) w)) <= 1)%nat)
  /\ (forall e w,
        pointerX (exec (dispatch gv ilc r e) w)
        = match e with
          | Grant lx px n =>
              if Props.disabled (props r) || Nat.ltb 1 n then pointerX w
              else [grantListener ilc r lx px w]
          | _ => pointerX w
          end)
  /\ (forall x l w,
        Props.disabled (props r) = false -> pointerX w = [l] ->
        exec (onPanResponderMove gv r x) w
        = exec (handlePositionChange gv l (x - l_containerX l)) w).
Proof.
  split; [|split].
  - apply dispatchAll_at_most_one.
  - apply dispatch_pointerX.
  - intros x l w Hd Hl. apply onPanResponderMove_single; assumption.
Qed.

End Listeners.

Lemma C10_witness :
  (length (pointerX (exec (dispatchAll getValueForPosition_spec isLowCloser_spec
                             render0 [Grant 45 45 1; Move 50; Release;
                                      Grant 90 90 1; Move 95])
                          (world0 120))) <= 1)%nat
  /\ exec (onPanResponderMove getValueForPosition_spec render0 50) world_dragging
     = exec (handlePositionChange getValueForPosition_spec listener0 (50 - 0))
            world_dragging.
Proof.
  split.
  - apply (proj1 (C10_single_pointer_listener getValueForPosition_spec
                    isLowCloser_spec render0)).
    cbn [world0 pointerX length]. lia.
  - apply (proj2 (proj2 (C10_single_pointer_listener getValueForPosition_spec
                           isLowCloser_spec render0))).
    + reflexivity.
    + vm_compute. reflexivity.
Defined.

(** ** A disabled slider *)

Section Disabled.

Variable gv : Q -> Q -> Q -> Q -> Q -> Q -> Q.
Variable ilc : Q -> Q -> Q -> bool.

(** What the guards on [disabled] achieve: a touch-down and a move change
    nothing at all. *)
Lemma disabled_grant_and_move_ignored r w :
  Props.disabled (props r) = true ->
  (forall lx px n, exec (onPanResponderGrant gv ilc r lx px n) w = w)
  /\ (forall x, exec (onPanResponderMove gv r x) w = w).
Proof.
  intros Hd. split.
  - intros lx px n. unfold exec.
    rewrite onPanResponderGrant_ignored by (left; exact Hd). reflexivity.
  - intros x. rewrite onPanResponderMove_exec, Hd. reflexivity.
Qed.

(** The release handler has no such guard. *)
Lemma release_always_notifies r w :
  calls (exec (onPanResponderRelease r) w)
  = calls w ++ [onSliderTouchEnd (InProps.low (inPropsRef w))
                                 (InProps.high (inPropsRef w))].
Proof. reflexivity. Qed.

End Disabled.

(** C4.  On a disabled slider a touch-down starts no session and calls
    nothing, yet the release of that same touch invokes
    [onSliderTouchEnd(20, 80)]: the touch-down/release pair does reach the
    host. *)
Theorem C4_disabled_release_calls_touch_end :
  let gv := getValueForPosition_spec in
  let ilc := isLowCloser_spec in
  exec (onPanResponderGrant gv ilc render_disabled 45 45 1) (world0 120)
    = world0 120
  /\ calls (exec (dispatchAll gv ilc render_disabled [Grant 45 45 1; Release])
                 (world0 120))
     = [onSliderTouchEnd 20 80].
Proof. split; reflexivity. Qed.

(** ** Termination *)

(** C7 (amended).  A termination request is rejected in every state: the
    handler returns [false], whether or not a drag is in progress, and
    changes nothing. *)
Theorem C7_termination_request_always_rejected (r : Render) (w : World) :
  onPanResponderTerminationRequest r w = (false, w).
Proof. reflexivity. Qed.

(** C7 as stated fails in the middle of a drag: the request is rejected
    there too. *)
Lemma C7_counterexample :
  isPressed world_dragging = true
  /\ fst (onPanResponderTerminationRequest render0 world_dragging) <> true.
Proof. split; [reflexivity | discriminate]. Qed.

(** ** The end of a session *)

Section SessionEnd.

Variable gv : Q -> Q -> Q -> Q -> Q -> Q -> Q.
Variable ilc : Q -> Q -> Q -> bool.

(** C8 (amended).  A release clears the pressed flag and hands the current
    [(low, high)] to [onSliderTouchEnd].  It does not touch
    [gestureStateRef]: [lastValue] and [lastPosition] outlive the session,
    and the first position of the next session is skipped whenever its
    value equals the [lastValue] left behind. *)
Theorem C8_release_keeps_gesture_state (r : Render) (w : World) :
  (let w' := exec (onPanResponderRelease r) w in
   isPressed w' = false
   /\ gestureStateRef w' = gestureStateRef w
   /\ inPropsRef w' = inPropsRef w
   /\ calls w' = calls w ++ [onSliderTouchEnd (InProps.low (inPropsRef w))
                                              (InProps.high (inPropsRef w))])
  /\ (forall r2 lx px n,
        let w1 := exec (onPanResponderRelease r) w in
        let l := grantListener ilc r2 lx px w1 in
        Props.disabled (props r2) = false -> (n <= 1)%nat ->
        GestureState.lastValue (gestureStateRef w)
          == moveValue gv l lx (inPropsRef w) ->
        exec (onPanResponderGrant gv ilc r2 lx px n) w1
        = withListeners [l] (touched (l_isLow l) w1)).
Proof.
  split.
  - cbv zeta. rewrite onPanResponderRelease_exec. repeat split.
  - intros r2 lx px n w1 l Hd Hn Hv.
    rewrite onPanResponderGrant_started by assumption. fold l.
    unfold exec at 1. rewrite handlePositionChange_skip; [reflexivity|].
    apply strictEq_true. exact Hv.
Qed.

End SessionEnd.

Lemma C8_witness :
  let gv := getValueForPosition_spec in
  let ilc := isLowCloser_spec in
  exec (onPanResponderGrant gv ilc render0 45 45 1) world_released
  = withListeners [listener0] (touched true world_released).
Proof.
  intros gv ilc.
  apply (proj2 (C8_release_keeps_gesture_state gv ilc render0 world_dragging)
               render0 45 45 1%nat).
  - reflexivity.
  - lia.
  - vm_compute. reflexivity.
Defined.

(** C8 as stated fails: after a tap at 45 and its release the recorded
    [lastValue] is still 45, so the same tap again is skipped (the host
    hears [onSliderTouchStart] and no change); and a termination during a
    drag leaves the slider pressed. *)
Lemma C8_counterexample :
  let gv := getValueForPosition_spec in
  let ilc := isLowCloser_spec in
  isPressed world_released = false
  /\ GestureState.lastValue (gestureStateRef world_released) == 45
  /\ gestureStateRef world_released <> GestureState.initial
  /\ calls (exec (onPanResponderGrant gv ilc render0 45 45 1) world_released)
     = calls world_released ++ [onSliderTouchStart 45 80]
  /\ isPressed (exec (dispatch gv ilc render0 Terminate) world_dragging) = true.
Proof.
  cbv zeta. split; [reflexivity|]. split; [reflexivity|].
  split; [|split].
  - intros H. apply (f_equal GestureState.lastValue) in H.
    vm_compute in H. discriminate.
  - vm_compute. reflexivity.
  - reflexivity.
Qed.

(** ** The effects of a render pass *)

Lemma sameSession_refl w : sameSession w w.
Proof. repeat split. Qed.

Lemma sameSession_trans w1 w2 w3 :
  sameSession w1 w2 -> sameSession w2 w3 -> sameSession w1 w3.
Proof.
  intros (A1 & A2 & A3 & A4 & A5) (B1 & B2 & B3 & B4 & B5).
  repeat split; congruence.
Qed.

Lemma updateThumbs_effect r w :
  let w' := exec (updateThumbs r) w in
  sameSession w w'
  /\ calls w' =
       calls w ++ (if falsy (thumbWidth r) || falsy (containerWidthRef w)
                   then [] else resyncCalls w).
Proof.
  cbv zeta.
  destruct (falsy (thumbWidth r) || falsy (containerWidthRef w)) eqn:G.
  - unfold exec. rewrite updateThumbs_no_layout by exact G. cbn [snd].
    split; [apply sameSession_refl | symmetry; apply app_nil_r].
  - destruct (updateThumbs_layout r w G) as (_ & _ & Hc & H1 & H2 & H3 & H4 & H5).
    split; [repeat split; assumption | exact Hc].
Qed.

Lemma definedAndDiffers_true (prop : option Q) (prev : Q) :
  definedAndDiffers prop prev = true
  <-> exists v, prop = Some v /\ ~ v == prev.
Proof.
  unfold definedAndDiffers, strictNe. destruct prop as [v|].
  - rewrite negb_true_iff. split.
    + intros H. exists v. split; [reflexivity | apply Qeq_bool_neq; exact H].
    + intros (v' & E & H). injection E as <-.
      apply (proj2 (strictEq_false v prev)). exact H.
  - split; [discriminate | intros (v & E & _); discriminate].
Qed.

Lemma app_eq_self {A} (l k : list A) : l ++ k = l -> k = [].
Proof.
  intros H. apply (f_equal (@length A)) in H. rewrite length_app in H.
  destruct k; [reflexivity | cbn [length] in H; lia].
Qed.

(** C5 (amended).  Among the effects of a render pass the first re-syncs
    exactly when it runs and an external [low] or [high] is defined and
    differs from the previous value handed over by [useLowHigh]; an
    undefined one never counts.  The second effect re-syncs as well, on
    mount and whenever [updateThumbs] was re-created (a change of [min],
    [max], [disableRange], [thumbWidth], [onValueChanged] or
    [updateSelectedRail]).  With both widths non-zero every re-sync sets
    the low thumb, and in range mode the high thumb, to the interpolated
    offset of the stored value and ends in [updateSelectedRail()] and
    [onValueChanged(low, high, false)]; the host hears of a re-sync exactly
    when one of the two was due, and nothing at all changes when none was.
    The two effects themselves never touch the store, the gesture state,
    the pressed flag or the listeners. *)
Theorem C5_resync_on_render (prev : option Render) (cur : Render) (w : World) :
  let p := inPropsRef w in
  let space := containerWidthRef w - thumbWidth cur in
  let w' := exec (commitEffects prev cur) w in
  let byProps := runsExternalSync prev cur && externalChanged cur in
  let byLayout := runsLayoutSync prev cur in
  (externalChanged cur = true
   <-> (exists v, Props.low (props cur) = Some v /\ ~ v == lowPrev cur)
       \/ (exists v, Props.high (props cur) = Some v /\ ~ v == highPrev cur))
  /\ sameSession w w'
  /\ (byProps || byLayout = false -> w' = w)
  /\ (~ containerWidthRef w == 0 -> ~ thumbWidth cur == 0 ->
      calls w' = calls w ++ (if byProps then resyncCalls w else [])
                         ++ (if byLayout then resyncCalls w else [])
      /\ (calls w' <> calls w <-> byProps || byLayout = true)
      /\ (byProps || byLayout = true ->
          lowThumbX w'
            = positionForValue (InProps.low p) (Props.min (props cur))
                               (Props.max (props cur)) space
          /\ (Props.disableRange (props cur) = false ->
              highThumbX w'
                = positionForValue (InProps.high p) (Props.min (props cur))
                                   (Props.max (props cur)) space))).
Proof.
  cbv zeta. split; [|split; [|split]].
  - unfold externalChanged. rewrite orb_true_iff.
    rewrite !definedAndDiffers_true. reflexivity.
  - unfold commitEffects. rewrite exec_bind.
    apply sameSession_trans with
      (w2 := exec (if runsExternalSync prev cur then externalSyncEffect cur
                   else ret tt) w).
    + destruct (runsExternalSync prev cur); [|apply sameSession_refl].
      unfold externalSyncEffect.
      destruct (externalChanged cur); [|apply sameSession_refl].
      apply updateThumbs_effect.
    + destruct (runsLayoutSync prev cur); [|apply sameSession_refl].
      apply updateThumbs_effect.
  - intros H. apply orb_false_iff in H. destruct H as [H1 H2].
    unfold commitEffects. rewrite exec_bind, H2.
    unfold externalSyncEffect.
    destruct (runsExternalSync prev cur); [|reflexivity].
    cbn [andb] in H1. rewrite H1. reflexivity.
  - intros Hc Ht.
    assert (G : falsy (thumbWidth cur) || falsy (containerWidthRef w) = false).
    { apply orb_false_iff. split; apply falsy_false; assumption. }
    set (w1 := exec (if runsExternalSync prev cur
                     then externalSyncEffect cur else ret tt) w).
    assert (H1 : sameSession w w1
                 /\ calls w1 = calls w
                      ++ (if runsExternalSync prev cur && externalChanged cur
                          then resyncCalls w else [])
                 /\ (runsExternalSync prev cur && externalChanged cur = true ->
                     w1 = exec (updateThumbs cur) w)).
    { subst w1. unfold externalSyncEffect.
      destruct (runsExternalSync prev cur); cbn [andb];
        [destruct (externalChanged cur)|].
      - destruct (updateThumbs_effect cur w) as [S C]. rewrite G in C.
        split; [exact S | split; [exact C | reflexivity]].
      - split; [apply sameSession_refl|].
        split; [symmetry; apply app_nil_r | discriminate].
      - split; [apply sameSession_refl|].
        split; [symmetry; apply app_nil_r | discriminate]. }
    destruct H1 as ((S1 & _ & _ & S4 & _) & C1 & W1).
    assert (G1 : falsy (thumbWidth cur) || falsy (containerWidthRef w1) = false).
    { rewrite S4. exact G. }
    assert (Ew : exec (commitEffects prev cur) w
                 = exec (if runsLayoutSync prev cur then layoutSyncEffect cur
                         else ret tt) w1).
    { unfold commitEffects. rewrite exec_bind. reflexivity. }
    assert (E : calls (exec (commitEffects prev cur) w)
                = calls w
                  ++ (if runsExternalSync prev cur && externalChanged cur
                      then resyncCalls w else [])
                  ++ (if runsLayoutSync prev cur then resyncCalls w else [])).
    { rewrite Ew. destruct (runsLayoutSync prev cur).
      - destruct (updateThumbs_effect cur w1) as [_ C]. cbv zeta in C.
        rewrite G1 in C. unfold layoutSyncEffect. rewrite C, C1.
        unfold resyncCalls. rewrite S1, <- app_assoc. reflexivity.
      - rewrite exec_ret, C1, app_nil_r. reflexivity. }
    split; [exact E|]. split.
    + rewrite E. split.
      * intros H.
        destruct (runsExternalSync prev cur && externalChanged cur);
          [reflexivity|].
        destruct (runsLayoutSync prev cur); [reflexivity|].
        exfalso. apply H. cbn [app]. apply app_nil_r.
      * intros H Heq. apply app_eq_self in Heq.
        destruct (runsExternalSync prev cur && externalChanged cur);
          [discriminate Heq|].
        destruct (runsLayoutSync prev cur); [discriminate Heq|discriminate H].
    + intros Hdue. rewrite Ew.
      destruct (runsLayoutSync prev cur).
      * unfold layoutSyncEffect.
        destruct (updateThumbs_layout cur w1 G1) as (Hl & Hh & _).
        cbv zeta in Hl, Hh. rewrite S1, S4 in Hl, Hh.
        split; [exact Hl|]. intros Hd. rewrite Hh, Hd. reflexivity.
      * rewrite orb_false_r in Hdue. rewrite exec_ret, (W1 Hdue).
        destruct (updateThumbs_layout cur w G) as (Hl & Hh & _).
        cbv zeta in Hl, Hh.
        split; [exact Hl|]. intros Hd. rewrite Hh, Hd. reflexivity.
Qed.

Lemma C5_witness :
  let w' := exec (commitEffects (Some render_low20) render_low50) world_low50 in
  calls w' = [updateSelectedRail; onValueChanged 50 80 false]
  /\ calls w' <> calls world_low50
  /\ lowThumbX world_low50 == 20
  /\ lowThumbX w' == 50
  /\ highThumbX w' == 80.
Proof.
  cbv zeta.
  destruct (C5_resync_on_render (Some render_low20) render_low50 world_low50)
    as (_ & _ & _ & H).
  destruct H as (E & I & T).
  - intros H; vm_compute in H; discriminate.
  - intros H; vm_compute in H; discriminate.
  - destruct (T eq_refl) as [Tl Th].
    split; [exact E|]. split; [apply I; reflexivity|].
    split; [reflexivity|]. split.
    + rewrite Tl. reflexivity.
    + rewrite (Th eq_refl). reflexivity.
Defined.

(** C5 as stated fails in the render pass that follows the first
    measurement of the thumb: no external value is supplied, yet both
    thumbs are positioned and the host is notified with [byUser = false]. *)
Lemma C5_counterexample :
  let w' := exec (commitEffects (Some render_unmeasured) render0) (world0 120) in
  Props.low (props render0) = None
  /\ Props.high (props render0) = None
  /\ externalChanged render0 = false
  /\ calls w' = [updateSelectedRail; onValueChanged 20 80 false]
  /\ lowThumbX w' == 20
  /\ highThumbX w' == 80.
Proof. cbv zeta. repeat split. Qed.

(** * Further properties *)

(** ** Claiming the gesture on a move *)

(** X1.  [onMoveShouldSetPanResponder] looks at the size of the movement
    only: mirroring either axis does not change its answer.  It never
    claims a move whose horizontal part is at most twice its vertical part
    (a move without horizontal part in particular), and always claims a
    purely horizontal one. *)
Theorem X1_move_claim_is_horizontal (dx dy : Q) :
  onMoveShouldSetPanResponder (- dx) dy = onMoveShouldSetPanResponder dx dy
  /\ onMoveShouldSetPanResponder dx (- dy) = onMoveShouldSetPanResponder dx dy
  /\ (Qabs dx <= 2 * Qabs dy -> onMoveShouldSetPanResponder dx dy = false)
  /\ (dx == 0 -> onMoveShouldSetPanResponder dx dy = false)
  /\ (~ dx == 0 -> dy == 0 -> onMoveShouldSetPanResponder dx dy = true).
Proof.
  unfold onMoveShouldSetPanResponder.
  assert (Hle : forall a b, a == b -> forall c, Qle_bool a c = Qle_bool b c).
  { intros a b E c. destruct (Qle_bool b c) eqn:B.
    - apply Qle_bool_iff. apply Qle_bool_iff in B. rewrite E. exact B.
    - destruct (Qle_bool a c) eqn:A; [|reflexivity].
      apply Qle_bool_iff in A. rewrite E in A. apply Qle_bool_iff in A.
      congruence. }
  assert (Hr : forall a b c, b == c -> Qle_bool a b = Qle_bool a c).
  { intros a b c E. destruct (Qle_bool a c) eqn:B.
    - apply Qle_bool_iff. apply Qle_bool_iff in B. rewrite E. exact B.
    - destruct (Qle_bool a b) eqn:A; [|reflexivity].
      apply Qle_bool_iff in A. rewrite E in A. apply Qle_bool_iff in A.
      congruence. }
  split; [|split; [|split; [|split]]].
  - rewrite (Hle _ _ (Qabs_opp dx)). reflexivity.
  - rewrite (Hr (Qabs dx) (2 * Qabs (- dy)) (2 * Qabs dy)); [reflexivity|].
    rewrite Qabs_opp. reflexivity.
  - intros H. apply negb_false_iff. apply Qle_bool_iff. exact H.
  - intros H. apply negb_false_iff. apply Qle_bool_iff.
    rewrite H. pose proof (Qabs_nonneg dy). change (Qabs 0) with 0. lra.
  - intros Hx Hy. apply negb_true_iff.
    destruct (Qle_bool (Qabs dx) (2 * Qabs dy)) eqn:E; [|reflexivity].
    apply Qle_bool_iff in E. rewrite Hy in E. change (Qabs 0) with 0 in E.
    exfalso. apply Hx.
    assert (Hz : Qabs dx <= 0) by lra.
    apply Qabs_Qle_condition in Hz. lra.
Qed.

Lemma X1_witness :
  onMoveShouldSetPanResponder 6 3 = false
  /\ onMoveShouldSetPanResponder 0 5 = false
  /\ onMoveShouldSetPanResponder (-7) 0 = true.
Proof.
  destruct (X1_move_claim_is_horizontal 6 3) as (_ & _ & A & _).
  destruct (X1_move_claim_is_horizontal 0 5) as (_ & _ & _ & B & _).
  destruct (X1_move_claim_is_horizontal (-7) 0) as (_ & _ & _ & _ & C).
  split; [|split].
  - apply A. vm_compute. discriminate.
  - apply B. reflexivity.
  - apply C; [intros H; vm_compute in H; discriminate | reflexivity].
Defined.

(** ** Where [updateThumbs] puts the thumbs *)

Lemma positionForValue_monotone (a b min max space : Q) :
  min < max -> 0 <= space -> a <= b ->
  positionForValue a min max space <= positionForValue b min max space.
Proof.
  intros Hmm Hs Hab. unfold positionForValue.
  apply Qmult_le_compat_r; [|exact Hs].
  unfold Qdiv. apply Qmult_le_compat_r; [lra|].
  apply Qinv_le_0_compat. lra.
Qed.

Lemma positionForValue_at_most_space (value min max space : Q) :
  min < max -> 0 <= space -> value <= max ->
  positionForValue value min max space <= space.
Proof.
  intros Hmm Hs Hv. unfold positionForValue.
  assert (H1 : (value - min) / (max - min) <= 1).
  { apply Qle_shift_div_r; lra. }
  setoid_replace space with (1 * space) at 2 by ring.
  apply Qmult_le_compat_r; assumption.
Qed.

Lemma layout_known r w :
  ~ containerWidthRef w == 0 -> ~ thumbWidth r == 0 ->
  falsy (thumbWidth r) || falsy (containerWidthRef w) = false.
Proof.
  intros Hc Ht. apply orb_false_iff. split; apply falsy_false; assumption.
Qed.

(** X2.  In range mode, once the layout is known, [updateThumbs] never
    puts the low thumb to the right of the high thumb when the stored
    [low] does not exceed the stored [high] ([min < max],
    [thumbWidth <= containerWidth]). *)
Theorem X2_updateThumbs_keeps_thumb_order (r : Render) (w : World) :
  let w' := exec (updateThumbs r) w in
  ~ containerWidthRef w == 0 -> ~ thumbWidth r == 0 ->
  Props.disableRange (props r) = false ->
  Props.min (props r) < Props.max (props r) ->
  thumbWidth r <= containerWidthRef w ->
  InProps.low (inPropsRef w) <= InProps.high (inPropsRef w) ->
  lowThumbX w' <= highThumbX w'.
Proof.
  intros w' Hc Ht Hd Hmm Hw Hlh.
  destruct (updateThumbs_layout r w (layout_known r w Hc Ht)) as (Hl & Hh & _).
  subst w'. rewrite Hl, Hh, Hd.
  apply positionForValue_monotone; [exact Hmm | lra | exact Hlh].
Qed.

Lemma X2_witness :
  lowThumbX (exec (updateThumbs render0) (world0 120))
  <= highThumbX (exec (updateThumbs render0) (world0 120)).
Proof.
  apply (X2_updateThumbs_keeps_thumb_order render0 (world0 120));
    try reflexivity; try (vm_compute; discriminate);
    intros H; vm_compute in H; discriminate.
Defined.

(** X3.  Once the layout is known and [min < max], [updateThumbs] puts a
    low thumb whose stored value is [min] at offset 0 and, in range mode,
    a high thumb whose stored value is [max] at offset
    [containerWidth - thumbWidth], the far end of the track. *)
Theorem X3_updateThumbs_track_ends (r : Render) (w : World) :
  let w' := exec (updateThumbs r) w in
  ~ containerWidthRef w == 0 -> ~ thumbWidth r == 0 ->
  Props.min (props r) < Props.max (props r) ->
  (InProps.low (inPropsRef w) == Props.min (props r) -> lowThumbX w' == 0)
  /\ (Props.disableRange (props r) = false ->
      InProps.high (inPropsRef w) == Props.max (props r) ->
      highThumbX w' == containerWidthRef w - thumbWidth r).
Proof.
  intros w' Hc Ht Hmm.
  destruct (updateThumbs_layout r w (layout_known r w Hc Ht)) as (Hl & Hh & _).
  subst w'. split.
  - intros E. rewrite Hl. unfold positionForValue. rewrite E.
    unfold Qdiv.
    setoid_replace (Props.min (props r) - Props.min (props r)) with 0 by ring.
    ring.
  - intros Hd E. rewrite Hh, Hd. unfold positionForValue. rewrite E.
    field. lra.
Qed.

Lemma X3_witness :
  let w := mkWorld (InProps.mk 0 100 0 100 1) GestureState.initial false 120
                   7 7 [] [] in
  lowThumbX (exec (updateThumbs render0) w) == 0
  /\ highThumbX (exec (updateThumbs render0) w) == 120 - 20.
Proof.
  intros w.
  destruct (X3_updateThumbs_track_ends render0 w) as [A B].
  - intros H; vm_compute in H; discriminate.
  - intros H; vm_compute in H; discriminate.
  - reflexivity.
  - split; [apply A; reflexivity | apply B; reflexivity].
Defined.

Section DragInvariants.

Variable gv : Q -> Q -> Q -> Q -> Q -> Q -> Q.
Variable ilc : Q -> Q -> Q -> bool.

(** X4.  Whatever the sequence of touch events, the pan handlers leave
    [min], [max] and [step] of the store and the measured container width
    as they found them: a drag writes [low] or [high] and nothing else of
    the value store. *)
Theorem X4_drag_keeps_domain_and_width
    (r : Render) (es : list Event) (w : World) :
  let w' := exec (dispatchAll gv ilc r es) w in
  InProps.min (inPropsRef w') = InProps.min (inPropsRef w)
  /\ InProps.max (inPropsRef w') = InProps.max (inPropsRef w)
  /\ InProps.step (inPropsRef w') = InProps.step (inPropsRef w)
  /\ containerWidthRef w' = containerWidthRef w.
Proof.
  cbv zeta.
  apply (dispatchAll_invariant gv ilc r
           (fun w' =>
              InProps.min (inPropsRef w') = InProps.min (inPropsRef w)
              /\ InProps.max (inPropsRef w') = InProps.max (inPropsRef w)
              /\ InProps.step (inPropsRef w') = InProps.step (inPropsRef w)
              /\ containerWidthRef w' = containerWidthRef w)).
  - intros w1 lx px _ H. exact H.
  - intros w1 l pos H _. unfold accepted. cbn [inPropsRef containerWidthRef].
    destruct (l_isLow l); exact H.
  - intros w1 H. exact H.
  - repeat split.
Qed.

(** X5.  In single-thumb mode ([disableRange]) no sequence of touch events
    changes the stored [high] or moves the high thumb, provided that any
    listener already registered drives the low thumb (none is registered
    before the first touch). *)
Theorem X5_single_thumb_never_moves_high
    (r : Render) (es : list Event) (w : World) :
  let w' := exec (dispatchAll gv ilc r es) w in
  Props.disableRange (props r) = true ->
  listenersAllLow w ->
  InProps.high (inPropsRef w') = InProps.high (inPropsRef w)
  /\ highThumbX w' = highThumbX w
  /\ listenersAllLow w'.
Proof.
  intros w' Hd Hl. subst w'.
  apply (dispatchAll_invariant gv ilc r
           (fun w' =>
              InProps.high (inPropsRef w') = InProps.high (inPropsRef w)
              /\ highThumbX w' = highThumbX w
              /\ listenersAllLow w')).
  - intros w1 lx px _ (H1 & H2 & _). repeat split; try assumption.
    unfold listenersAllLow, withListeners. cbn [pointerX].
    constructor; [|constructor].
    unfold grantListener, grantIsLow. cbn [l_isLow]. rewrite Hd. reflexivity.
  - intros w1 l pos (H1 & H2 & H3) Hin.
    assert (El : l_isLow l = true).
    { unfold listenersAllLow in H3. rewrite Forall_forall in H3.
      apply H3. exact Hin. }
    unfold accepted, listenersAllLow.
    cbn [inPropsRef highThumbX pointerX]. rewrite El.
    repeat split; assumption.
  - intros w1 H. exact H.
  - repeat split. exact Hl.
Qed.

(** X6.  The thumb named by [gestureStateRef.current.isLow], which the
    label and notch followers read, is the thumb that the registered
    listener drives: touch events keep the two in step. *)
Theorem X6_gesture_state_names_active_thumb
    (r : Render) (es : list Event) (w : World) :
  listenersMatchGesture w ->
  listenersMatchGesture (exec (dispatchAll gv ilc r es) w).
Proof.
  apply (dispatchAll_invariant gv ilc r listenersMatchGesture).
  - intros w1 lx px _ _. unfold listenersMatchGesture, withListeners, touched.
    cbn [pointerX gestureStateRef GestureState.isLow].
    constructor; [reflexivity | constructor].
  - intros w1 l pos H _. exact H.
  - intros w1 H. exact H.
Qed.

End DragInvariants.

Lemma X5_witness :
  let w' := exec (dispatchAll getValueForPosition_spec isLowCloser_spec
                    render_single [Grant 95 95 1; Move 50; Release])
                 (world0 120) in
  InProps.high (inPropsRef w') = 80 /\ highThumbX w' = 0.
Proof.
  cbv zeta.
  destruct (X5_single_thumb_never_moves_high getValueForPosition_spec
              isLowCloser_spec render_single
              [Grant 95 95 1; Move 50; Release] (world0 120))
    as (A & B & _).
  - reflexivity.
  - constructor.
  - split; [exact A | exact B].
Defined.

Lemma X6_witness :
  listenersMatchGesture
    (exec (dispatchAll getValueForPosition_spec isLowCloser_spec render0
             [Grant 95 95 1; Move 50; Release; Grant 10 10 1]) (world0 120)).
Proof.
  apply (X6_gesture_state_names_active_thumb getValueForPosition_spec
           isLowCloser_spec render0).
  constructor.
Defined.

(** ** What the host is told during a drag *)

Lemma lastUserChange_app (cs ds : list Call) :
  lastUserChange (cs ++ ds)
  = fold_left
      (fun acc c =>
         match c with
         | onValueChanged low high true => Some (low, high)
         | _ => acc
         end)
      ds (lastUserChange cs).
Proof. unfold lastUserChange. apply fold_left_app. Qed.

Lemma handlePositionChange_userChanges gv l pos w :
  (userChanges (calls w)
   <= userChanges (calls (exec (handlePositionChange gv l pos) w))
   <= S (userChanges (calls w)))%nat.
Proof.
  destruct (handlePositionChange_cases gv l pos w) as [E|E]; rewrite E.
  - lia.
  - rewrite accepted_userChanges. lia.
Qed.

Section Notifications.

Variable gv : Q -> Q -> Q -> Q -> Q -> Q -> Q.
Variable ilc : Q -> Q -> Q -> bool.

(** X7.  The pair last reported through [onValueChanged(low, high, true)]
    is the pair the store holds: if that is so before a sequence of touch
    events (for instance because nothing was reported yet), it is so
    after it. *)
Theorem X7_last_user_change_is_stored
    (r : Render) (es : list Event) (w : World) :
  notifiedStore w -> notifiedStore (exec (dispatchAll gv ilc r es) w).
Proof.
  apply (dispatchAll_invariant gv ilc r notifiedStore).
  - intros w1 lx px _ H. unfold notifiedStore, withListeners, touched in *.
    cbn [calls inPropsRef]. rewrite lastUserChange_app. exact H.
  - intros w1 l pos _ _. unfold notifiedStore, accepted.
    cbn [calls inPropsRef]. rewrite lastUserChange_app. cbn [fold_left].
    destruct (l_isLow l); split; reflexivity.
  - intros w1 H. rewrite onPanResponderRelease_exec.
    unfold notifiedStore in *. cbn [calls inPropsRef].
    rewrite lastUserChange_app. exact H.
Qed.

(** X8.  Touch events write the store only together with a report to the
    host: the number of [byUser = true] reports never goes down, and when
    it is the same after a sequence of events as before, so is the whole
    store. *)
Theorem X8_store_written_only_with_report
    (r : Render) (es : list Event) (w : World) :
  let w' := exec (dispatchAll gv ilc r es) w in
  (userChanges (calls w) <= userChanges (calls w'))%nat
  /\ (userChanges (calls w') = userChanges (calls w) ->
      inPropsRef w' = inPropsRef w).
Proof.
  cbv zeta.
  apply (dispatchAll_invariant gv ilc r
           (fun w' =>
              (userChanges (calls w) <= userChanges (calls w'))%nat
              /\ (userChanges (calls w') = userChanges (calls w) ->
                  inPropsRef w' = inPropsRef w))).
  - intros w1 lx px _ [H1 H2]. unfold withListeners, touched.
    cbn [calls inPropsRef]. rewrite userChanges_app. cbn [userChanges].
    split; [lia|]. intros E. apply H2. lia.
  - intros w1 l pos [H1 H2] _. rewrite accepted_userChanges.
    split; [lia|]. intros E. lia.
  - intros w1 [H1 H2]. rewrite onPanResponderRelease_exec.
    cbn [calls inPropsRef]. rewrite userChanges_app. cbn [userChanges].
    split; [lia|]. intros E. apply H2. lia.
  - split; [lia | reflexivity].
Qed.

Lemma dispatch_userChanges r e w :
  (length (pointerX w) <= 1)%nat ->
  (userChanges (calls (exec (dispatch gv ilc r e) w))
   <= userChanges (calls w) + pointerEvents [e])%nat.
Proof.
  intros Hlen. destruct e as [lx px n | x | | |]; cbn [dispatch pointerEvents].
  - destruct (Props.disabled (props r)) eqn:Hd.
    { unfold exec. rewrite onPanResponderGrant_ignored by (left; exact Hd).
      cbn [snd]. lia. }
    destruct (Nat.le_gt_cases n 1) as [Hn|Hn].
    + rewrite onPanResponderGrant_started by assumption.
      unfold withListeners. cbn [calls].
      match goal with
      | |- context [exec (handlePositionChange gv ?l ?p) ?w0] =>
          pose proof (handlePositionChange_userChanges gv l p w0) as Hu
      end.
      assert (Ht : forall b, userChanges (calls (touched b w))
                             = userChanges (calls w)).
      { intros b. unfold touched. cbn [calls]. rewrite userChanges_app.
        cbn [userChanges]. lia. }
      rewrite Ht in Hu. lia.
    + unfold exec. rewrite onPanResponderGrant_ignored by (right; exact Hn).
      cbn [snd]. lia.
  - rewrite onPanResponderMove_exec.
    destruct (Props.disabled (props r)); [lia|].
    destruct (pointerX w) as [|l [|l2 ls]].
    + cbn [callListeners]. rewrite exec_ret. lia.
    + rewrite callListeners_cons. cbn [callListeners]. rewrite exec_ret.
      pose proof (handlePositionChange_userChanges gv l (x - l_containerX l) w).
      lia.
    + cbn [length] in Hlen. lia.
  - rewrite onPanResponderRelease_exec. cbn [calls].
    rewrite userChanges_app. cbn [userChanges]. lia.
  - cbn. lia.
  - cbn. lia.
Qed.

(** X9.  With at most one listener registered to begin with, the host
    hears at most one [onValueChanged(..., true)] per touch-down or move
    event, and none for any other event. *)
Theorem X9_one_report_per_pointer_event
    (r : Render) (es : list Event) (w : World) :
  (length (pointerX w) <= 1)%nat ->
  (userChanges (calls (exec (dispatchAll gv ilc r es) w))
   <= userChanges (calls w) + pointerEvents es)%nat.
Proof.
  revert w. induction es as [|e es IH]; intros w Hlen.
  - cbn. lia.
  - rewrite dispatchAll_cons.
    pose proof (dispatch_userChanges r e w Hlen) as H1.
    assert (Hlen' : (length (pointerX (exec (dispatch gv ilc r e) w)) <= 1)%nat).
    { rewrite dispatch_pointerX. destruct e as [lx px n | x | | |];
        try exact Hlen.
      destruct (Props.disabled (props r) || Nat.ltb 1 n); [exact Hlen|].
      cbn [length]. lia. }
    pose proof (IH _ Hlen') as H2.
    assert (Hp : pointerEvents (e :: es)
                 = (pointerEvents [e] + pointerEvents es)%nat).
    { destruct e; reflexivity. }
    rewrite Hp. lia.
Qed.

End Notifications.

Lemma X7_witness :
  notifiedStore
    (exec (dispatchAll getValueForPosition_spec isLowCloser_spec render0
             [Grant 45 45 1; Move 50; Release; Grant 90 90 1; Move 70])
          (world0 120)).
Proof.
  apply (X7_last_user_change_is_stored getValueForPosition_spec
           isLowCloser_spec render0).
  exact I.
Defined.

Lemma X8_witness :
  inPropsRef (exec (dispatchAll getValueForPosition_spec isLowCloser_spec
                      render_disabled [Grant 45 45 1; Move 50; Release])
                   (world0 120))
  = store0.
Proof.
  apply (proj2 (X8_store_written_only_with_report getValueForPosition_spec
                  isLowCloser_spec render_disabled
                  [Grant 45 45 1; Move 50; Release] (world0 120))).
  reflexivity.
Defined.

Lemma X9_witness :
  (userChanges
     (calls (exec (dispatchAll getValueForPosition_spec isLowCloser_spec render0
                     [Grant 45 45 1; Move 50; Move 50; Release])
                  (world0 120)))
   <= 0 + 3)%nat.
Proof.
  apply (X9_one_report_per_pointer_event getValueForPosition_spec
           isLowCloser_spec render0
           [Grant 45 45 1; Move 50; Move 50; Release] (world0 120)).
  cbn [world0 pointerX length]. lia.
Defined.

(** ** Thumb offsets during a drag *)

Section ThumbOffsets.

Variable gv : Q -> Q -> Q -> Q -> Q -> Q -> Q.
Variable ilc : Q -> Q -> Q -> bool.

Lemma dispatchAll_thumbsReflectStore r es w :
  thumbsReflectStore (thumbWidth r) w /\ listenersCurrent (thumbWidth r) w ->
  let w' := exec (dispatchAll gv ilc r es) w in
  thumbsReflectStore (thumbWidth r) w' /\ listenersCurrent (thumbWidth r) w'.
Proof.
  intros H. cbv zeta. revert H.
  apply (dispatchAll_invariant gv ilc r
           (fun w' => thumbsReflectStore (thumbWidth r) w'
                      /\ listenersCurrent (thumbWidth r) w')).
  - intros w1 lx px _ [H1 H2]. split; [exact H1|].
    unfold listenersCurrent, withListeners, touched, grantListener.
    cbn [pointerX containerWidthRef l_containerWidth l_render].
    constructor; [split; reflexivity | constructor].
  - intros w1 l pos [[H1 H2] H3] Hin.
    assert (Hl : l_containerWidth l = containerWidthRef w1
                 /\ thumbWidth (l_render l) = thumbWidth r).
    { unfold listenersCurrent in H3. rewrite Forall_forall in H3.
      apply H3. exact Hin. }
    destruct Hl as [Hc Ht]. split; [|exact H3].
    unfold thumbsReflectStore, accepted.
    cbn [inPropsRef containerWidthRef lowThumbX highThumbX].
    rewrite Hc, Ht.
    destruct (l_isLow l); split;
      cbn [InProps.withLow InProps.withHigh InProps.low InProps.high
           InProps.min InProps.max];
      try reflexivity; assumption.
  - intros w1 H. exact H.
Qed.

(** X10.  Touch events keep the thumbs where the store says: if both
    thumb offsets are the interpolation of the stored [low] and [high]
    (as [updateThumbs] leaves them) and every registered listener was
    created for the current container and thumb widths, the same holds
    after any sequence of events. *)
Theorem X10_thumbs_follow_store (r : Render) (es : list Event) (w : World) :
  thumbsReflectStore (thumbWidth r) w ->
  listenersCurrent (thumbWidth r) w ->
  thumbsReflectStore (thumbWidth r) (exec (dispatchAll gv ilc r es) w).
Proof.
  intros H1 H2.
  apply (dispatchAll_thumbsReflectStore r es w (conj H1 H2)).
Qed.

(** X11.  Thumbs do not cross during drags, and the high thumb does not
    pass the far end of the track: for [min < max], [minRange >= 0] and
    [thumbWidth <= containerWidth], starting from a store with
    [low <= high <= max] whose thumbs are where the store says (and whose
    listeners, if any, are current and were created with this
    [minRange]), after any sequence of touch events
    [lowThumbX <= highThumbX <= containerWidth - thumbWidth]. *)
Theorem X11_thumbs_ordered_on_track (r : Render) (es : list Event) (w : World) :
  let p := inPropsRef w in
  let minRange := Props.minRange (props r) in
  let w' := exec (dispatchAll gv ilc r es) w in
  InProps.min p < InProps.max p ->
  0 <= minRange ->
  thumbWidth r <= containerWidthRef w ->
  InProps.low p <= InProps.high p ->
  InProps.high p <= InProps.max p ->
  thumbsReflectStore (thumbWidth r) w ->
  listenersCurrent (thumbWidth r) w ->
  listenersWith minRange w ->
  lowThumbX w' <= highThumbX w'
  /\ highThumbX w' <= containerWidthRef w - thumbWidth r.
Proof.
  intros p minRange w' Hmm Hmr Hw Hlh Hhm Hrs Hlc Hlw.
  destruct (dispatchAll_thumbsReflectStore r es w (conj Hrs Hlc))
    as [[Tl Th] _].
  pose proof (dispatchAll_ordered gv ilc r es w Hmr Hlh Hhm Hlw) as [I1 I2].
  destruct (dispatchAll_invariant gv ilc r
              (fun w' =>
                 InProps.min (inPropsRef w') = InProps.min (inPropsRef w)
                 /\ InProps.max (inPropsRef w') = InProps.max (inPropsRef w)
                 /\ containerWidthRef w' = containerWidthRef w)) with
    (es := es) (w := w) as (Fmin & Fmax & Fcw).
  { intros w1 lx px _ H. exact H. }
  { intros w1 l pos H _. unfold accepted. cbn [inPropsRef containerWidthRef].
    destruct (l_isLow l); exact H. }
  { intros w1 H. exact H. }
  { repeat split. }
  cbv zeta in I1, I2.
  fold w' in Tl, Th, I1, I2, Fmin, Fmax, Fcw.
  rewrite Tl, Th, Fcw.
  assert (Hmm' : InProps.min (inPropsRef w') < InProps.max (inPropsRef w')).
  { rewrite Fmin, Fmax. exact Hmm. }
  assert (Hs : 0 <= containerWidthRef w - thumbWidth r) by lra.
  split.
  - apply positionForValue_monotone; assumption.
  - apply positionForValue_at_most_space; assumption.
Qed.

End ThumbOffsets.

Lemma X10_witness :
  thumbsReflectStore 20
    (exec (dispatchAll getValueForPosition_spec isLowCloser_spec render0
             [Grant 45 45 1; Move 50; Release; Grant 90 90 1; Move 70])
          world_synced).
Proof.
  apply (X10_thumbs_follow_store getValueForPosition_spec isLowCloser_spec
           render0 _ world_synced).
  - split; reflexivity.
  - constructor.
Defined.

Lemma X11_witness :
  let w' := exec (dispatchAll getValueForPosition_spec isLowCloser_spec render0
                    [Grant 45 45 1; Move 200; Release; Grant 90 90 1; Move (-30)])
                 world_synced in
  lowThumbX w' <= highThumbX w' /\ highThumbX w' <= 120 - 20.
Proof.
  apply (X11_thumbs_ordered_on_track getValueForPosition_spec isLowCloser_spec
           render0 _ world_synced).
  - reflexivity.
  - vm_compute. discriminate.
  - vm_compute. discriminate.
  - vm_compute. discriminate.
  - vm_compute. discriminate.
  - split; reflexivity.
  - constructor.
  - constructor.
Defined.

(** ** Events outside a session *)

Section StrayEvents.

Variable gv : Q -> Q -> Q -> Q -> Q -> Q -> Q.
Variable ilc : Q -> Q -> Q -> bool.

Lemma dispatchAll_two r e1 e2 w :
  exec (dispatchAll gv ilc r [e1; e2]) w
  = exec (dispatch gv ilc r e2) (exec (dispatch gv ilc r e1) w).
Proof.
  rewrite !dispatchAll_cons. reflexivity.
Qed.

(** X12.  Only an accepted touch-down replaces the listener.  A second
    finger's touch-down is ignored, but the moves that follow it are still
    handled by the session registered before, as are moves that arrive
    after a release: each runs that session's [handlePositionChange]. *)
Theorem X12_moves_reach_registered_session
    (r : Render) (l : Listener) (lx px x : Q) (n : nat) (w : World) :
  Props.disabled (props r) = false -> pointerX w = [l] ->
  ((1 < n)%nat ->
   exec (dispatchAll gv ilc r [Grant lx px n; Move x]) w
   = exec (handlePositionChange gv l (x - l_containerX l)) w)
  /\ exec (dispatchAll gv ilc r [Release; Move x]) w
     = exec (handlePositionChange gv l (x - l_containerX l))
            (exec (onPanResponderRelease r) w).
Proof.
  intros Hd Hl. split.
  - intros Hn. rewrite dispatchAll_two. cbn [dispatch].
    assert (E : exec (onPanResponderGrant gv ilc r lx px n) w = w).
    { unfold exec. rewrite onPanResponderGrant_ignored by (right; exact Hn).
      reflexivity. }
    rewrite E. apply onPanResponderMove_single; assumption.
  - rewrite dispatchAll_two. cbn [dispatch].
    apply onPanResponderMove_single; [exact Hd|].
    rewrite onPanResponderRelease_exec. cbn [pointerX]. exact Hl.
Qed.

(** X17.  An accepted touch-down marks the slider pressed, records the
    chosen thumb in [gestureStateRef] and registers that session's listener
    alone; the host hears [onSliderTouchStart] once, with the values stored
    before the touch and before anything else, followed either by nothing
    or by the calls of one accepted change to the value of the touch
    point. *)
Theorem X17_touch_down_starts_session
    (r : Render) (lx px : Q) (n : nat) (w : World) :
  let p := inPropsRef w in
  let l := grantListener ilc r lx px w in
  let w' := exec (onPanResponderGrant gv ilc r lx px n) w in
  Props.disabled (props r) = false -> (n <= 1)%nat ->
  isPressed w' = true
  /\ GestureState.isLow (gestureStateRef w') = l_isLow l
  /\ pointerX w' = [l]
  /\ exists tail,
       calls w' = calls w
                  ++ onSliderTouchStart (InProps.low p) (InProps.high p) :: tail
       /\ (tail = []
           \/ tail = changeCalls (l_isLow l) p (moveValue gv l lx p)
                       (GestureState.lastPosition (gestureStateRef w'))).
Proof.
  intros p l w' Hd Hn. subst w'.
  rewrite onPanResponderGrant_started by assumption. fold l.
  destruct (handlePositionChange_cases gv l lx (touched (l_isLow l) w))
    as [E|E]; rewrite E.
  - repeat split. exists []. split; [reflexivity | left; reflexivity].
  - repeat split. unfold accepted, withListeners, touched.
    cbn [calls inPropsRef gestureStateRef GestureState.lastPosition].
    eexists. split.
    + rewrite <- app_assoc. reflexivity.
    + right. reflexivity.
Qed.

End StrayEvents.

Lemma X12_witness :
  let gv := getValueForPosition_spec in
  let ilc := isLowCloser_spec in
  exec (dispatchAll gv ilc render0 [Grant 90 90 2; Move 60]) world_dragging
  = exec (handlePositionChange gv listener0 (60 - 0)) world_dragging.
Proof.
  intros gv ilc.
  apply (proj1 (X12_moves_reach_registered_session gv ilc render0 listener0
                  90 90 60 2 world_dragging eq_refl eq_refl)).
  lia.
Defined.

Lemma X17_witness :
  let w' := exec (onPanResponderGrant getValueForPosition_spec isLowCloser_spec
                    render0 45 45 1) (world0 120) in
  isPressed w' = true /\ length (pointerX w') = 1%nat.
Proof.
  cbv zeta.
  destruct (X17_touch_down_starts_session getValueForPosition_spec
              isLowCloser_spec render0 45 45 1 (world0 120))
    as (A & _ & C & _).
  - reflexivity.
  - lia.
  - split; [exact A | rewrite C; reflexivity].
Defined.

(** ** Render passes *)

Lemma externalSync_sameSession (run : bool) r w :
  sameSession w (exec (if run then externalSyncEffect r else ret tt) w).
Proof.
  destruct run; [|apply sameSession_refl].
  unfold externalSyncEffect.
  destruct (externalChanged r); [|apply sameSession_refl].
  apply updateThumbs_effect.
Qed.

Lemma sameOption_refl (a : option Q) : sameOption a a = true.
Proof. destruct a; [apply Qeq_bool_refl | reflexivity]. Qed.

Lemma updateThumbsUnchanged_refl r : updateThumbsUnchanged r r = true.
Proof.
  unfold updateThumbsUnchanged, strictEq.
  rewrite Bool.eqb_reflx, !Qeq_bool_refl, !Nat.eqb_refl. reflexivity.
Qed.

Lemma externalSyncUnchanged_refl r : externalSyncUnchanged r r = true.
Proof.
  unfold externalSyncUnchanged, strictEq.
  rewrite !sameOption_refl, !Qeq_bool_refl, Nat.eqb_refl,
    updateThumbsUnchanged_refl.
  reflexivity.
Qed.

(** X13.  Mounting is silent.  The first render pass runs both effects,
    but [thumbWidth] still has its initial state 0, so neither positions a
    thumb nor notifies the host, whatever [low] and [high] the host
    supplies. *)
Theorem X13_mount_is_silent (r : Render) (w : World) :
  thumbWidth r == 0 -> exec (commitEffects None r) w = w.
Proof.
  intros Ht.
  assert (G : forall w0, exec (updateThumbs r) w0 = w0).
  { intros w0. unfold exec. rewrite updateThumbs_no_layout; [reflexivity|].
    apply orb_true_iff. left. apply falsy_true. exact Ht. }
  unfold commitEffects. rewrite exec_bind.
  cbn [runsExternalSync runsLayoutSync]. unfold layoutSyncEffect.
  rewrite G. unfold externalSyncEffect.
  destruct (externalChanged r); [apply G | reflexivity].
Qed.

Lemma X13_witness :
  exec (commitEffects None
          (mkRender (Props.mk 0 100 0 1 (Some 20) (Some 80) false false 0%nat)
                    0 0 100 0%nat 0%nat))
       (world0 120)
  = world0 120.
Proof.
  apply X13_mount_is_silent. reflexivity.
Defined.

(** X14.  The render pass that follows a thumb layout event with a new,
    non-zero width re-syncs once the container is measured: it leaves both
    thumbs (the low one alone in single-thumb mode) at the interpolation
    of the stored values for the new width and ends by telling the host
    [onValueChanged(low, high, false)], without touching the store. *)
Theorem X14_thumb_measurement_resyncs
    (prev cur : Render) (width : Q) (w : World) :
  let p := inPropsRef w in
  let space := containerWidthRef w - width in
  let w' := exec (commitEffects (Some prev) cur) w in
  thumbWidth cur = handleThumbLayout prev width ->
  ~ thumbWidth prev == width -> ~ width == 0 -> ~ containerWidthRef w == 0 ->
  lowThumbX w'
    = positionForValue (InProps.low p) (Props.min (props cur))
                       (Props.max (props cur)) space
  /\ (Props.disableRange (props cur) = false ->
      highThumbX w'
        = positionForValue (InProps.high p) (Props.min (props cur))
                           (Props.max (props cur)) space)
  /\ inPropsRef w' = inPropsRef w
  /\ exists before, calls w' = before ++ resyncCalls w.
Proof.
  intros p space w' Hcur Hne Hw0 Hc0.
  assert (Hneb : (thumbWidth prev !== width) = true).
  { unfold strictNe. apply negb_true_iff.
    apply (proj2 (strictEq_false (thumbWidth prev) width)). exact Hne. }
  assert (Htw : thumbWidth cur = width).
  { rewrite Hcur. unfold handleThumbLayout. rewrite Hneb. reflexivity. }
  assert (Hrun : runsLayoutSync (Some prev) cur = true).
  { cbn [runsLayoutSync]. apply negb_true_iff. unfold updateThumbsUnchanged.
    rewrite Htw.
    rewrite (proj2 (strictEq_false (thumbWidth prev) width) Hne).
    rewrite andb_false_r. reflexivity. }
  subst w'. unfold commitEffects. rewrite exec_bind, Hrun.
  unfold layoutSyncEffect.
  set (w1 := exec (if runsExternalSync (Some prev) cur
                   then externalSyncEffect cur else ret tt) w).
  destruct (externalSync_sameSession (runsExternalSync (Some prev) cur) cur w)
    as (S1 & _ & _ & S4 & _).
  fold w1 in S1, S4.
  assert (G : falsy (thumbWidth cur) || falsy (containerWidthRef w1) = false).
  { apply layout_known; [rewrite S4; exact Hc0 | rewrite Htw; exact Hw0]. }
  destruct (updateThumbs_layout cur w1 G) as (Hl & Hh & Hcalls & Hs & _).
  cbv zeta in Hl, Hh, Hcalls, Hs.
  rewrite S1, S4, Htw in Hl, Hh. rewrite S1 in Hcalls.
  split; [exact Hl|]. split.
  - intros Hd. rewrite Hh, Hd. reflexivity.
  - split; [rewrite Hs; exact S1|].
    exists (calls w1). exact Hcalls.
Qed.

Lemma X14_witness :
  let w' := exec (commitEffects (Some render_unmeasured) render0) (world0 120) in
  lowThumbX w' = positionForValue 20 0 100 (120 - 20)
  /\ inPropsRef w' = store0.
Proof.
  cbv zeta.
  destruct (X14_thumb_measurement_resyncs render_unmeasured render0 20
              (world0 120)) as (A & _ & C & _).
  - reflexivity.
  - intros H; vm_compute in H; discriminate.
  - intros H; vm_compute in H; discriminate.
  - intros H; vm_compute in H; discriminate.
  - split; [exact A | exact C].
Defined.

(** X15.  A render pass all of whose effect dependencies equal those of
    the pass before (the dependency list of the first effect contains
    that of the second) runs neither effect and changes nothing, whatever
    else differs between the two renders ([step], [minRange],
    [disabled]); a thumb layout event that reports the width already held
    leaves the state, hence the render, as it is. *)
Theorem X15_unchanged_render_is_silent
    (prev cur : Render) (width : Q) (w : World) :
  (externalSyncUnchanged prev cur = true ->
   exec (commitEffects (Some prev) cur) w = w)
  /\ (thumbWidth cur == width ->
      withThumbWidth (handleThumbLayout cur width) cur = cur)
  /\ externalSyncUnchanged cur cur = true
  /\ (externalSyncUnchanged prev cur = true
      <-> sameOption (Props.high (props prev)) (Props.high (props cur)) = true
          /\ lowPrev prev == lowPrev cur
          /\ highPrev prev == highPrev cur
          /\ sameOption (Props.low (props prev)) (Props.low (props cur)) = true
          /\ inPropsRefPrevId prev = inPropsRefPrevId cur
          /\ Props.disableRange (props prev) = Props.disableRange (props cur)
          /\ Props.max (props prev) == Props.max (props cur)
          /\ Props.min (props prev) == Props.min (props cur)
          /\ Props.onValueChangedId (props prev)
             = Props.onValueChangedId (props cur)
          /\ thumbWidth prev == thumbWidth cur
          /\ updateSelectedRailId prev = updateSelectedRailId cur).
Proof.
  split; [|split; [|split]].
  - intros H. unfold commitEffects. cbn [runsExternalSync runsLayoutSync].
    rewrite H.
    assert (Hu : updateThumbsUnchanged prev cur = true).
    { unfold externalSyncUnchanged in H. apply andb_true_iff in H.
      destruct H as [_ H]. exact H. }
    rewrite Hu. reflexivity.
  - intros H. unfold handleThumbLayout, strictNe.
    rewrite (proj2 (Qeq_bool_iff (thumbWidth cur) width) H). cbn [negb].
    destruct cur. reflexivity.
  - apply externalSyncUnchanged_refl.
  - unfold externalSyncUnchanged, updateThumbsUnchanged, strictEq.
    rewrite !andb_true_iff, !Qeq_bool_iff, !Nat.eqb_eq, Bool.eqb_true_iff.
    tauto.
Qed.

Lemma X15_witness :
  exec (commitEffects (Some render0)
          (mkRender (Props.mk 0 100 7 5 None None false true 0%nat)
                    (40 # 2) 20 80 0%nat 0%nat))
       (world0 120)
  = world0 120
  /\ withThumbWidth (handleThumbLayout render0 (40 # 2)) render0 = render0.
Proof.
  split.
  - apply (proj1 (X15_unchanged_render_is_silent render0
                    (mkRender (Props.mk 0 100 7 5 None None false true 0%nat)
                              (40 # 2) 20 80 0%nat 0%nat)
                    0 (world0 120))).
    reflexivity.
  - apply (proj1 (proj2 (X15_unchanged_render_is_silent render0 render0
                           (40 # 2) (world0 120)))).
    reflexivity.
Defined.

(** ** The follower anchor *)

(** X16.  The thumb centre that an accepted change records in
    [gestureStateRef] and hands to the followers is the offset given to
    the active thumb plus [thumbWidth / 2].  For [min < max],
    [thumbWidth <= containerWidth] and a value in [[min, max]] it lies
    between [thumbWidth / 2], the centre of a thumb at the near end of the
    track, and [(containerWidth - thumbWidth) + thumbWidth / 2], the
    centre of a thumb at the far end. *)
Theorem X16_follower_anchor
    (gv : Q -> Q -> Q -> Q -> Q -> Q -> Q)
    (l : Listener) (pos : Q) (w : World) :
  let p := inPropsRef w in
  let cw := l_containerWidth l in
  let tw := thumbWidth (l_render l) in
  let value := moveValue gv l pos p in
  let w' := exec (handlePositionChange gv l pos) w in
  let centre := GestureState.lastPosition (gestureStateRef w') in
  ~ GestureState.lastValue (gestureStateRef w) == value ->
  centre = (if l_isLow l then lowThumbX w' else highThumbX w') + tw / 2
  /\ (InProps.min p < InProps.max p -> tw <= cw ->
      InProps.min p <= value <= InProps.max p ->
      tw / 2 <= centre <= (cw - tw) + tw / 2).
Proof.
  intros p cw tw value w' centre Hne.
  assert (E : w' = accepted l value w).
  { subst w'. unfold exec. rewrite handlePositionChange_accept;
      [reflexivity | apply strictEq_false; exact Hne]. }
  subst centre. rewrite E. unfold accepted.
  cbn [gestureStateRef lowThumbX highThumbX GestureState.lastPosition].
  fold p cw tw. split.
  - destruct (l_isLow l); reflexivity.
  - intros Hmm Hw Hv.
    assert (Hs : 0 <= cw - tw) by lra.
    pose proof (positionForValue_bounds value (InProps.min p) (InProps.max p)
                  (cw - tw) Hmm Hs Hv) as [B1 B2].
    split; lra.
Qed.

Lemma X16_witness :
  let w' := exec (handlePositionChange getValueForPosition_spec listener0 45)
                 (world0 120) in
  20 / 2 <= GestureState.lastPosition (gestureStateRef w')
         <= (120 - 20) + 20 / 2.
Proof.
  cbv zeta.
  destruct (X16_follower_anchor getValueForPosition_spec listener0 45
              (world0 120)) as (_ & C).
  - intros H; vm_compute in H; discriminate.
  - apply C; [reflexivity | vm_compute; discriminate
              | split; vm_compute; discriminate].
Defined.

(** ** A disabled slider, continued *)

(** X18.  While the slider is disabled no sequence of touch events writes
    the store, the gesture state, a thumb offset or the listener table,
    and the host hears neither [onSliderTouchStart] nor a change: every
    call made is an [onSliderTouchEnd] of a release. *)
Theorem X18_disabled_slider_is_inert
    (gv : Q -> Q -> Q -> Q -> Q -> Q -> Q) (ilc : Q -> Q -> Q -> bool)
    (r : Render) (es : list Event) (w : World) :
  let w' := exec (dispatchAll gv ilc r es) w in
  Props.disabled (props r) = true ->
  inPropsRef w' = inPropsRef w
  /\ gestureStateRef w' = gestureStateRef w
  /\ lowThumbX w' = lowThumbX w
  /\ highThumbX w' = highThumbX w
  /\ pointerX w' = pointerX w
  /\ exists ends,
       calls w' = calls w ++ ends
       /\ Forall (fun c => c = onSliderTouchEnd (InProps.low (inPropsRef w))
                                                (InProps.high (inPropsRef w)))
                 ends.
Proof.
  intros w' Hd. subst w'. revert w.
  induction es as [|e es IH]; intros w.
  - repeat split. exists []. split; [symmetry; apply app_nil_r | constructor].
  - rewrite dispatchAll_cons.
    assert (Hstep : exec (dispatch gv ilc r e) w = w
                    \/ exec (dispatch gv ilc r e) w
                       = exec (onPanResponderRelease r) w).
    { destruct e as [lx px n | x | | |]; cbn [dispatch].
      - left. unfold exec.
        rewrite onPanResponderGrant_ignored by (left; exact Hd). reflexivity.
      - left. rewrite onPanResponderMove_exec, Hd. reflexivity.
      - right. reflexivity.
      - left. reflexivity.
      - left. reflexivity. }
    destruct Hstep as [E|E]; rewrite E.
    + apply IH.
    + destruct (IH (exec (onPanResponderRelease r) w))
        as (I1 & I2 & I3 & I4 & I5 & ends & I6 & I7).
      set (w1 := exec (onPanResponderRelease r) w) in *.
      assert (Hc : calls w1
                   = calls w ++ [onSliderTouchEnd (InProps.low (inPropsRef w))
                                                  (InProps.high (inPropsRef w))])
        by reflexivity.
      change (inPropsRef w1) with (inPropsRef w) in I1, I7.
      change (gestureStateRef w1) with (gestureStateRef w) in I2.
      change (lowThumbX w1) with (lowThumbX w) in I3.
      change (highThumbX w1) with (highThumbX w) in I4.
      change (pointerX w1) with (pointerX w) in I5.
      repeat split; try assumption.
      exists (onSliderTouchEnd (InProps.low (inPropsRef w))
                               (InProps.high (inPropsRef w)) :: ends).
      split.
      * rewrite I6, Hc, <- app_assoc. reflexivity.
      * constructor; [reflexivity | exact I7].
Qed.

Lemma X18_witness :
  let w' := exec (dispatchAll getValueForPosition_spec isLowCloser_spec
                    render_disabled
                    [Grant 45 45 1; Move 70; Release; Grant 90 90 1; Move 10])
                 world_synced in
  inPropsRef w' = store0 /\ lowThumbX w' = lowThumbX world_synced.
Proof.
  cbv zeta.
  destruct (X18_disabled_slider_is_inert getValueForPosition_spec
              isLowCloser_spec render_disabled
              [Grant 45 45 1; Move 70; Release; Grant 90 90 1; Move 10]
              world_synced) as (A & _ & C & _).
  - reflexivity.
  - split; [exact A | exact C].
Defined.

(** ** Touch start and touch end *)

Lemma touchStarts_app (cs ds : list Call) :
  touchStarts (cs ++ ds) = (touchStarts cs + touchStarts ds)%nat.
Proof.
  induction cs as [|c cs IH]; [reflexivity|].
  destruct c; cbn [app touchStarts]; rewrite IH; reflexivity.
Qed.

Lemma touchEnds_app (cs ds : list Call) :
  touchEnds (cs ++ ds) = (touchEnds cs + touchEnds ds)%nat.
Proof.
  induction cs as [|c cs IH]; [reflexivity|].
  destruct c; cbn [app touchEnds]; rewrite IH; reflexivity.
Qed.

Section TouchCallbacks.

Variable gv : Q -> Q -> Q -> Q -> Q -> Q -> Q.
Variable ilc : Q -> Q -> Q -> bool.

Lemma handlePositionChange_touch_calls l pos w :
  touchStarts (calls (exec (handlePositionChange gv l pos) w))
    = touchStarts (calls w)
  /\ touchEnds (calls (exec (handlePositionChange gv l pos) w))
     = touchEnds (calls w).
Proof.
  destruct (handlePositionChange_cases gv l pos w) as [E|E]; rewrite E.
  - split; reflexivity.
  - unfold accepted. cbn [calls].
    rewrite touchStarts_app, touchEnds_app. cbn [touchStarts touchEnds].
    split; lia.
Qed.

Lemma callListeners_touch_calls ls x :
  forall w,
    touchStarts (calls (exec (callListeners gv ls x) w)) = touchStarts (calls w)
    /\ touchEnds (calls (exec (callListeners gv ls x) w)) = touchEnds (calls w).
Proof.
  induction ls as [|l ls IH]; intros w; [split; reflexivity|].
  rewrite callListeners_cons.
  destruct (IH (exec (handlePositionChange gv l (x - l_containerX l)) w))
    as [A B].
  destruct (handlePositionChange_touch_calls l (x - l_containerX l) w)
    as [C D].
  split; congruence.
Qed.

Lemma dispatch_touch_calls r e w :
  touchStarts (calls (exec (dispatch gv ilc r e) w))
    = (touchStarts (calls w) + acceptedGrants r [e])%nat
  /\ touchEnds (calls (exec (dispatch gv ilc r e) w))
     = (touchEnds (calls w) + releases [e])%nat.
Proof.
  destruct e as [lx px n | x | | |];
    cbn [dispatch acceptedGrants releases].
  - destruct (Props.disabled (props r)) eqn:Hd; cbn [orb].
    { unfold exec. rewrite onPanResponderGrant_ignored by (left; exact Hd).
      cbn [snd]. split; lia. }
    destruct (Nat.ltb 1 n) eqn:Hn.
    + unfold exec. rewrite onPanResponderGrant_ignored
        by (right; apply Nat.ltb_lt; exact Hn).
      cbn [snd]. split; lia.
    + rewrite onPanResponderGrant_started;
        [|exact Hd | apply Nat.ltb_ge; exact Hn].
      unfold withListeners. cbn [calls].
      match goal with
      | |- context [exec (handlePositionChange gv ?l ?p) ?w0] =>
          destruct (handlePositionChange_touch_calls l p w0) as [A B]
      end.
      rewrite A, B. unfold touched. cbn [calls].
      rewrite touchStarts_app, touchEnds_app. cbn [touchStarts touchEnds].
      split; lia.
  - rewrite onPanResponderMove_exec.
    destruct (Props.disabled (props r)); [split; lia|].
    destruct (callListeners_touch_calls (pointerX w) x w) as [A B].
    split; lia.
  - rewrite onPanResponderRelease_exec. cbn [calls].
    rewrite touchStarts_app, touchEnds_app. cbn [touchStarts touchEnds].
    split; lia.
  - cbn. split; lia.
  - cbn. split; lia.
Qed.

(** X19.  The host hears [onSliderTouchEnd] exactly once for every release,
    whatever came before it, and [onSliderTouchStart] exactly once for every
    touch-down that passes the guards (slider enabled, at most one active
    touch); moves, terminations and termination requests make neither
    call. *)
Theorem X19_touch_callbacks_counted
    (r : Render) (es : list Event) (w : World) :
  let w' := exec (dispatchAll gv ilc r es) w in
  touchStarts (calls w') = (touchStarts (calls w) + acceptedGrants r es)%nat
  /\ touchEnds (calls w') = (touchEnds (calls w) + releases es)%nat.
Proof.
  cbv zeta. revert w. induction es as [|e es IH]; intros w.
  - cbn. split; lia.
  - rewrite dispatchAll_cons.
    destruct (IH (exec (dispatch gv ilc r e) w)) as [A B].
    destruct (dispatch_touch_calls r e w) as [C D].
    assert (Ha : acceptedGrants r (e :: es)
                 = (acceptedGrants r [e] + acceptedGrants r es)%nat).
    { destruct e as [lx px n | | | |]; cbn [acceptedGrants]; try reflexivity.
      destruct (Props.disabled (props r) || Nat.ltb 1 n); reflexivity. }
    assert (Hr : releases (e :: es) = (releases [e] + releases es)%nat).
    { destruct e; reflexivity. }
    rewrite A, B, C, D, Ha, Hr. split; lia.
Qed.

End TouchCallbacks.
